(** * The Win32 debugger core of edb: session life cycle, wait loop, registry

    A shallow embedding of [plugins/DebuggerCore/win32/DebuggerCore.cpp].
    The C++ object [DebuggerCore] becomes a record; its member functions
    become computations in a small state monad over that record.  Calls
    that leave the object (Win32 API, Qt, the breakpoint collaborator,
    [PlatformProcess::resume]) are recorded, in order, in a ghost log; what
    they answer is read from a record of oracles, [OS]. *)

From stdpp Require Import gmap strings list fin_maps.
From Stdlib Require Import ZArith Ascii.

Open Scope Z_scope.

(** ** Win32 vocabulary *)

(** [HANDLE], [DWORD], [edb::pid_t] and [edb::tid_t] are machine integers;
    the null handle is [0]. *)
Abbreviation HANDLE := Z (only parsing).
Abbreviation DWORD := Z (only parsing).
Abbreviation pid_t := Z (only parsing).
Abbreviation tid_t := Z (only parsing).

(** Conversion to an unsigned 32-bit value, as [static_cast<DWORD>] does. *)
Definition to_DWORD (z : Z) : DWORD := z mod 2 ^ 32.

(** [dwDebugEventCode] values (WinBase.h). *)
Definition EXCEPTION_DEBUG_EVENT : DWORD := 1.
Definition CREATE_THREAD_DEBUG_EVENT : DWORD := 2.
Definition CREATE_PROCESS_DEBUG_EVENT : DWORD := 3.
Definition EXIT_THREAD_DEBUG_EVENT : DWORD := 4.
Definition EXIT_PROCESS_DEBUG_EVENT : DWORD := 5.
Definition LOAD_DLL_DEBUG_EVENT : DWORD := 6.
Definition UNLOAD_DLL_DEBUG_EVENT : DWORD := 7.
Definition OUTPUT_DEBUG_STRING_EVENT : DWORD := 8.
Definition RIP_EVENT : DWORD := 9.

Definition INFINITE : DWORD := 0xFFFFFFFF.
Definition DBG_CONTINUE : DWORD := 0x00010002.

(** Process creation flags (WinBase.h). *)
Definition DEBUG_PROCESS : DWORD := 0x1.
Definition DEBUG_ONLY_THIS_PROCESS : DWORD := 0x2.
Definition CREATE_NEW_CONSOLE : DWORD := 0x10.
Definition CREATE_UNICODE_ENVIRONMENT : DWORD := 0x400.

Definition TH32CS_SNAPPROCESS : DWORD := 0x2.

Record CREATE_THREAD_DEBUG_INFO := mkCreateThread {
  hThread : HANDLE;
  lpThreadLocalBase : Z;
  lpStartAddress : Z
}.

(** Only the members the debugger core reads are kept. *)
Record CREATE_PROCESS_DEBUG_INFO := mkCreateProcess {
  cp_hFile : HANDLE;
  cp_hProcess : HANDLE;
  cp_hThread : HANDLE;
  cp_lpThreadLocalBase : Z;
  cp_lpStartAddress : Z
}.

Record LOAD_DLL_DEBUG_INFO := mkLoadDll {
  ld_hFile : HANDLE
}.

(** The union [DEBUG_EVENT::u].  Every member is present at once: the code
    only reads the member that belongs to the event code at hand. *)
Record DEBUG_EVENT_u := mkU {
  CreateThread : CREATE_THREAD_DEBUG_INFO;
  CreateProcessInfo : CREATE_PROCESS_DEBUG_INFO;
  LoadDll : LOAD_DLL_DEBUG_INFO
}.

Record DEBUG_EVENT := mkDebugEvent {
  dwDebugEventCode : DWORD;
  dwProcessId : DWORD;
  dwThreadId : DWORD;
  u : DEBUG_EVENT_u
}.

Record PROCESS_INFORMATION := mkProcessInformation {
  pi_hProcess : HANDLE;
  pi_hThread : HANDLE;
  pi_dwProcessId : DWORD;
  pi_dwThreadId : DWORD
}.

Record PROCESSENTRY32W := mkProcessEntry {
  th32ProcessID : DWORD;
  th32ParentProcessID : DWORD
}.

(** ** Collaborating classes *)

(** [edb::EVENT_STATUS], the disposition handed to [resume]. *)
Inductive EVENT_STATUS :=
| DEBUG_STOP
| DEBUG_CONTINUE
| DEBUG_EXCEPTION_NOT_HANDLED.

(** [Status]: [Status::Ok] or an error carrying its message. *)
Inductive Status :=
| Ok
| Error (msg : string).

(** [PlatformProcess]: the members this file touches ([hProcess_],
    [lastEvent_]) and the identifier [pid()] answers.  [lastEvent_] is
    [None] until the wait loop first stamps a notification on it. *)
Record PlatformProcess := mkProcess {
  pid : pid_t;
  hProcess_ : HANDLE;
  lastEvent_ : option DEBUG_EVENT
}.

(** [PlatformThread]: what its constructor is given, the creation record
    (thread handle, thread-local base, start address). *)
Record PlatformThread := mkThread {
  thread_info : CREATE_THREAD_DEBUG_INFO
}.

(** [PlatformEvent]: the normalized event handed to the caller; it wraps the
    raw notification. *)
Record PlatformEvent := mkEvent {
  event : DEBUG_EVENT
}.

(** ** The outside world *)

(** Every call that leaves the [DebuggerCore] object, as it is issued. *)
Inductive OsCall :=
| CallWaitForDebugEvent (dwMilliseconds : DWORD)
| CallCloseHandle (h : HANDLE)
| CallResume (p : PlatformProcess) (status : EVENT_STATUS)
| CallClearBreakpoints
| CallContinueDebugEvent (dwProcessId dwThreadId dwContinueStatus : DWORD)
| CallDebugActiveProcess (dwProcessId : DWORD)
| CallDebugActiveProcessStop (dwProcessId : DWORD)
| CallTerminateProcess (h : HANDLE) (uExitCode : DWORD)
| CallGetEnvironmentStringsW
| CallFreeEnvironmentStringsW
| CallCreateProcessW (exe commandline : string) (flags : DWORD) (cwd : string)
| CallSetDebugPrivilege (process : HANDLE) (set : bool).
(* [CallSetDebugPrivilege] stands for the whole of the file-local helper
   [set_debug_privilege]: the token calls it makes are not told apart. *)

(** What the outside world answers.  [OpenProcess] and [GetProcessId] serve
    the two [PlatformProcess] constructors; [canonicalPath] is
    [QFileInfo(path).canonicalPath()]; a snapshot is the list of entries
    [Process32FirstW]/[Process32NextW] walk, [None] standing for
    [INVALID_HANDLE_VALUE]. *)
Record OS := mkOS {
  OpenProcess : pid_t → HANDLE;
  GetProcessId : HANDLE → pid_t;
  DebugActiveProcess : pid_t → bool;
  CreateProcessW : string → string → DWORD → string → option PROCESS_INFORMATION;
  canonicalPath : string → string;
  CreateToolhelp32Snapshot : DWORD → DWORD → option (list PROCESSENTRY32W)
}.

(** ** The debugger core object *)

(** [process_] is the [std::shared_ptr<IProcess>] ([None] is the null
    pointer), [threads_] the registry of thread objects keyed by thread
    identifier, [active_thread_] the identifier of the thread that reported
    last.  [os_calls] is the ghost log, oldest call first. *)
Record DebuggerCore := mkCore {
  process_ : option PlatformProcess;
  threads_ : gmap Z PlatformThread;
  active_thread_ : tid_t;
  os_calls : list OsCall
}.

(** A computation on the object: it either finishes with a value and the
    new object, or dereferences a null pointer ([None]). *)
Definition M (A : Type) : Type := DebuggerCore → option (A * DebuggerCore).

#[global] Instance M_ret : MRet M := λ A a s, Some (a, s).
#[global] Instance M_bind : MBind M := λ A B k m s,
  match m s with
  | Some (a, s') => k a s'
  | None => None
  end.

Definition null_dereference {A} : M A := λ _, None.

Definition gets {A} (f : DebuggerCore → A) : M A := λ s, Some (f s, s).

Definition set_process (p : option PlatformProcess) : M unit := λ s,
  Some (tt, mkCore p (threads_ s) (active_thread_ s) (os_calls s)).

Definition set_threads (t : gmap Z PlatformThread) : M unit := λ s,
  Some (tt, mkCore (process_ s) t (active_thread_ s) (os_calls s)).

Definition set_active_thread (t : tid_t) : M unit := λ s,
  Some (tt, mkCore (process_ s) (threads_ s) t (os_calls s)).

(** The object after one more call has been appended to the log. *)
Definition logged (c : OsCall) (s : DebuggerCore) : DebuggerCore :=
  mkCore (process_ s) (threads_ s) (active_thread_ s) (os_calls s ++ [c]).

Definition os_call (c : OsCall) : M unit := λ s, Some (tt, logged c s).

(** [process_->...]: the pointee, or undefined behaviour on a null pointer. *)
Definition deref_process : M PlatformProcess := λ s,
  match process_ s with
  | Some p => Some (p, s)
  | None => null_dereference s
  end.

(** ** Member functions *)

Section DebuggerCore.

Variable os : OS.

(** Modelled from the spec: the constructor [PlatformProcess(core, pid)] is
    declared outside this file; the process object records the identifier
    and the handle [OpenProcess] answers for it (null when it cannot be
    opened, which is what [enumerate_processes] tests). *)
Definition PlatformProcess_of_pid (p : pid_t) : PlatformProcess :=
  mkProcess p (OpenProcess os p) None.

(** Modelled from the spec: the constructor [PlatformProcess(core, handle)]
    is declared outside this file; the process object keeps the handle and
    answers [pid()] with the identifier the system gives for it. *)
Definition PlatformProcess_of_handle (h : HANDLE) : PlatformProcess :=
  mkProcess (GetProcessId os h) h None.

(** Modelled from the spec: [attached()] is inherited from the base class,
    outside this file; the core reports itself attached exactly when the
    target pointer is not null. *)
Definition attached (s : DebuggerCore) : bool :=
  match process_ s with
  | Some _ => true
  | None => false
  end.

(** [p->lastEvent_ = de]. *)
Definition stamp (de : DEBUG_EVENT) (p : PlatformProcess) : PlatformProcess :=
  mkProcess (pid p) (hProcess_ p) (Some de).

(** The body of the [while] loop of [wait_debug_event] up to the test of
    [propagate] (lines 164-214); the value is [propagate].  [Q_ASSERT] is
    compiled out of a release build and is not modelled. *)
Definition dispatch_debug_event (de : DEBUG_EVENT) : M bool :=
  set_active_thread (dwThreadId de);;
  propagate ←
    (if dwDebugEventCode de =? CREATE_THREAD_DEBUG_EVENT then
       let newThread := mkThread (CreateThread (u de)) in
       t ← gets active_thread_;
       ths ← gets threads_;
       set_threads (<[t := newThread]> ths);;
       mret false
     else if dwDebugEventCode de =? EXIT_THREAD_DEBUG_EVENT then
       t ← gets active_thread_;
       ths ← gets threads_;
       set_threads (delete t ths);;
       mret false
     else if dwDebugEventCode de =? CREATE_PROCESS_DEBUG_EVENT then
       os_call (CallCloseHandle (cp_hFile (CreateProcessInfo (u de))));;
       set_process (Some (PlatformProcess_of_handle (cp_hProcess (CreateProcessInfo (u de)))));;
       let thread_info :=
         {| hThread := cp_hThread (CreateProcessInfo (u de));
            lpStartAddress := cp_lpStartAddress (CreateProcessInfo (u de));
            lpThreadLocalBase := cp_lpThreadLocalBase (CreateProcessInfo (u de)) |} in
       let newThread := mkThread thread_info in
       t ← gets active_thread_;
       ths ← gets threads_;
       set_threads (<[t := newThread]> ths);;
       mret false
     else if dwDebugEventCode de =? LOAD_DLL_DEBUG_EVENT then
       os_call (CallCloseHandle (ld_hFile (LoadDll (u de))));;
       mret false
     else if dwDebugEventCode de =? EXIT_PROCESS_DEBUG_EVENT then
       p ← deref_process;
       os_call (CallResume p DEBUG_CONTINUE);;
       set_process None;;
       mret true
     else if dwDebugEventCode de =? EXCEPTION_DEBUG_EVENT then
       mret true
     else if dwDebugEventCode de =? RIP_EVENT then
       mret false
     else
       mret false);
  p ← gets process_;
  match p with
  | Some p => set_process (Some (stamp de p))
  | None => mret tt
  end;;
  mret propagate.

(** The timeout handed to [WaitForDebugEvent]:
    [msecs == 0 ? INFINITE : static_cast<DWORD>(msecs)]. *)
Definition wait_timeout (msecs : Z) : DWORD :=
  if msecs =? 0 then INFINITE else to_DWORD msecs.

(** The [while] loop of [wait_debug_event].  [evs] is what
    [WaitForDebugEvent] will deliver, in arrival order, before it first
    answers [FALSE] (the wait timed out or failed); the second component
    of the result is what has not been delivered yet. *)
Fixpoint wait_loop (msecs : Z) (evs : list DEBUG_EVENT)
  : M (option PlatformEvent * list DEBUG_EVENT) :=
  os_call (CallWaitForDebugEvent (wait_timeout msecs));;
  match evs with
  | [] => mret (None, [])
  | de :: rest =>
      propagate ← dispatch_debug_event de;
      if (propagate : bool) then
        mret (Some (mkEvent de), rest)
      else
        p ← deref_process;
        os_call (CallResume p DEBUG_EXCEPTION_NOT_HANDLED);;
        wait_loop msecs rest
  end.

Definition wait_debug_event (msecs : Z) (evs : list DEBUG_EVENT)
  : M (option PlatformEvent * list DEBUG_EVENT) :=
  a ← gets attached;
  if (a : bool) then wait_loop msecs evs else mret (None, evs).

Definition detach : M Status :=
  a ← gets attached;
  (if (a : bool) then
     os_call CallClearBreakpoints;;
     p ← deref_process;
     t ← gets active_thread_;
     os_call (CallContinueDebugEvent (pid p) t DBG_CONTINUE);;
     p' ← deref_process;
     os_call (CallDebugActiveProcessStop (pid p'));;
     set_process None;;
     set_threads ∅
   else mret tt);;
  mret Ok.

Definition attach (p : pid_t) : M Status :=
  detach;;
  os_call (CallDebugActiveProcess p);;
  if DebugActiveProcess os p then
    set_process (Some (PlatformProcess_of_pid p));;
    mret Ok
  else
    mret (Error "Error DebuggerCore::attach").

Definition kill : M unit :=
  p ← gets process_;
  match p with
  | Some p =>
      os_call (CallTerminateProcess (hProcess_ p) (to_DWORD (-1)));;
      detach;;
      mret tt
  | None => mret tt
  end.

(** The double-quote character that wraps the first token of the command
    line. *)
Definition dquote : string := String "034"%char "".

Definition isEmpty (q : string) : bool :=
  match q with
  | EmptyString => true
  | String _ _ => false
  end.

(** [command_str] of [open]: the quoted first token, then every argument
    after one blank. *)
Definition command_line (path : string) (args : list string) : string :=
  let command_str := dquote +:+ canonicalPath os path +:+ dquote in
  if bool_decide (args = []) then command_str
  else foldl (λ command_str arg, (command_str +:+ " ") +:+ arg) command_str args.

Definition CREATE_FLAGS : DWORD :=
  Z.lor (Z.lor (Z.lor DEBUG_PROCESS DEBUG_ONLY_THIS_PROCESS) CREATE_UNICODE_ENVIRONMENT)
        CREATE_NEW_CONSOLE.

(** [Q_UNUSED(tty)] and the release-build no-op [Q_ASSERT(!path.isEmpty())]
    leave no trace.  The writable copy [command_path] holds the characters of
    [command_str]; its allocation and release are local to the call. *)
Definition open (path cwd : string) (args : list string) (tty : string) : M Status :=
  detach;;
  let tcwd := if isEmpty cwd then canonicalPath os path else cwd in
  os_call CallGetEnvironmentStringsW;;
  let command_str := command_line path args in
  os_call (CallCreateProcessW path command_str CREATE_FLAGS tcwd);;
  ok ←
    match CreateProcessW os path command_str CREATE_FLAGS tcwd with
    | Some process_info =>
        set_active_thread (pi_dwThreadId process_info);;
        os_call (CallCloseHandle (pi_hThread process_info));;
        os_call (CallSetDebugPrivilege (pi_hProcess process_info) false);;
        set_process (Some (PlatformProcess_of_handle (pi_hProcess process_info)));;
        mret true
    | None => mret false
    end;
  os_call CallFreeEnvironmentStringsW;;
  if (ok : bool) then mret Ok else mret (Error "Error DebuggerCore::open").

(** The [do ... while(Process32NextW(...))] walk of [parent_pid] over the
    entries of the snapshot; [parent] is the value held when the walk ends
    without a match. *)
Fixpoint scan_snapshot (p : pid_t) (parent : pid_t) (entries : list PROCESSENTRY32W) : pid_t :=
  match entries with
  | [] => parent
  | pe32 :: entries' =>
      if p =? th32ProcessID pe32 then th32ParentProcessID pe32
      else scan_snapshot p parent entries'
  end.

Definition parent_pid (p : pid_t) : pid_t :=
  let parent := 1 in
  match CreateToolhelp32Snapshot os TH32CS_SNAPPROCESS p with
  | Some entries => scan_snapshot p parent entries
  | None => parent
  end.

End DebuggerCore.

(** ** Further member functions *)

(** [GetCurrentProcess()]: the pseudo handle of the calling process. *)
Definition GetCurrentProcess : HANDLE := -1.

Section DebuggerCoreRest.

Variable os : OS.

(** [~DebuggerCore]. *)
Definition DebuggerCore_destructor : M unit :=
  detach;;
  os_call (CallSetDebugPrivilege GetCurrentProcess false).

(** The [do ... while(Process32Next(...))] walk of [enumerate_processes]:
    an entry whose process cannot be opened (null [hProcess_]) is passed
    over by [continue], which goes on to [Process32Next]; the others are
    entered in [ret] under [pi->pid()]. *)
Fixpoint enumerate_entries (entries : list PROCESSENTRY32W)
    (ret : gmap Z PlatformProcess) : gmap Z PlatformProcess :=
  match entries with
  | [] => ret
  | lppe :: entries' =>
      let pi := PlatformProcess_of_pid os (th32ProcessID lppe) in
      if hProcess_ pi =? 0 then enumerate_entries entries' ret
      else enumerate_entries entries' (<[pid pi := pi]> ret)
  end.

Definition enumerate_processes : gmap Z PlatformProcess :=
  let ret := ∅ in
  match CreateToolhelp32Snapshot os TH32CS_SNAPPROCESS 0 with
  | Some entries => enumerate_entries entries ret
  | None => ret
  end.

End DebuggerCoreRest.

(** *** The file-local helper [set_debug_privilege] *)

Definition TOKEN_ADJUST_PRIVILEGES : DWORD := 0x20.
Definition SE_PRIVILEGE_ENABLED : DWORD := 0x2.
Definition SE_DEBUG_NAME : string := "SeDebugPrivilege".

(** [TOKEN_PRIVILEGES] with its one [LUID_AND_ATTRIBUTES] entry. *)
Record TOKEN_PRIVILEGES := mkTokenPrivileges {
  PrivilegeCount : DWORD;
  Privileges0_Luid : Z;
  Privileges0_Attributes : DWORD
}.

(** The calls the helper makes, as it makes them. *)
Inductive TokenCall :=
| CallOpenProcessToken (process : HANDLE) (access : DWORD)
| CallLookupPrivilegeValue (name : string)
| CallAdjustTokenPrivileges (token : HANDLE) (disableAll : bool) (tp : TOKEN_PRIVILEGES)
| CallCloseTokenHandle (token : HANDLE).

(** What the security subsystem answers: the token handle ([None] when the
    token cannot be opened), the identifier of a privilege ([None] when it
    is not known), whether the adjustment went through. *)
Record TokenOS := mkTokenOS {
  OpenProcessToken : HANDLE → DWORD → option HANDLE;
  LookupPrivilegeValue : string → option Z;
  AdjustTokenPrivileges : HANDLE → bool → TOKEN_PRIVILEGES → bool
}.

(** The value is [ok] together with the calls made, oldest first. *)
Definition set_debug_privilege (tos : TokenOS) (process : HANDLE) (set : bool)
  : bool * list TokenCall :=
  let ok := false in
  let calls := [CallOpenProcessToken process TOKEN_ADJUST_PRIVILEGES] in
  match OpenProcessToken tos process TOKEN_ADJUST_PRIVILEGES with
  | Some token =>
      let calls := calls ++ [CallLookupPrivilegeValue SE_DEBUG_NAME] in
      let '(ok, calls) :=
        match LookupPrivilegeValue tos SE_DEBUG_NAME with
        | Some luid =>
            let tp := {| PrivilegeCount := 1;
                         Privileges0_Luid := luid;
                         Privileges0_Attributes := if set then SE_PRIVILEGE_ENABLED else 0 |} in
            (AdjustTokenPrivileges tos token false tp,
             calls ++ [CallAdjustTokenPrivileges token false tp])
        | None => (ok, calls)
        end in
      (ok, calls ++ [CallCloseTokenHandle token])
  | None => (ok, calls)
  end.

(** ** Vocabulary of the statements *)

(** The thread record made up for the initial thread of a new process. *)
Definition initial_thread (de : DEBUG_EVENT) : PlatformThread :=
  mkThread {| hThread := cp_hThread (CreateProcessInfo (u de));
              lpStartAddress := cp_lpStartAddress (CreateProcessInfo (u de));
              lpThreadLocalBase := cp_lpThreadLocalBase (CreateProcessInfo (u de)) |}.

(** The arguments as they follow the first token: each after one blank. *)
Fixpoint blank_separated (args : list string) : string :=
  match args with
  | [] => ""
  | arg :: args' => " " +:+ arg +:+ blank_separated args'
  end.

(** Whether the switch of the wait loop hands a notification to the caller:
    the two cases that set [propagate]. *)
Definition propagates (de : DEBUG_EVENT) : bool :=
  (dwDebugEventCode de =? EXCEPTION_DEBUG_EVENT) ||
  (dwDebugEventCode de =? EXIT_PROCESS_DEBUG_EVENT).

(** The threads alive after one notification, as the notifications tell:
    thread and process creation report a thread, thread exit takes one
    away. *)
Definition live_step (K : gset Z) (de : DEBUG_EVENT) : gset Z :=
  if (dwDebugEventCode de =? CREATE_THREAD_DEBUG_EVENT) ||
     (dwDebugEventCode de =? CREATE_PROCESS_DEBUG_EVENT)
  then {[dwThreadId de]} ∪ K
  else if dwDebugEventCode de =? EXIT_THREAD_DEBUG_EVENT
  then K ∖ {[dwThreadId de]}
  else K.

Definition live_threads (K : gset Z) (evs : list DEBUG_EVENT) : gset Z :=
  foldl live_step K evs.

Definition is_close (c : OsCall) : Prop := ∃ h, c = CallCloseHandle h.

(** The shape of the calls one [wait_debug_event] makes with timeout [t]:
    every wait but the last is followed, after file handles are closed, by
    one resume with [DEBUG_EXCEPTION_NOT_HANDLED] before the next wait; the
    last wait is followed by nothing, or by the one resume with
    [DEBUG_CONTINUE] of a process exit. *)
Inductive loop_trace (t : DWORD) : list OsCall → Prop :=
| trace_stop :
    loop_trace t [CallWaitForDebugEvent t]
| trace_exit p :
    loop_trace t [CallWaitForDebugEvent t; CallResume p DEBUG_CONTINUE]
| trace_absorb closes p tr :
    Forall is_close closes →
    loop_trace t tr →
    loop_trace t
      (CallWaitForDebugEvent t :: closes ++ CallResume p DEBUG_EXCEPTION_NOT_HANDLED :: tr).

(** ** A small system *)

Module Fixture.

(** A file system without links, as [QFileInfo] sees it: [canonicalPath()]
    is the path without the file name, that is, what stands before the
    last [/]. *)
Fixpoint has_slash (q : string) : bool :=
  match q with
  | EmptyString => false
  | String c q' => if Ascii.eqb c "/" then true else has_slash q'
  end.

Fixpoint directory_of (q : string) : string :=
  match q with
  | EmptyString => EmptyString
  | String c q' => if has_slash q' then String c (directory_of q') else EmptyString
  end.

(** Process 200 exists and may be attached to; [CreateProcessW] starts it
    with initial thread 7; the process table holds 4, 100 and 200. *)
Definition example_os : OS :=
  {| OpenProcess := λ p, 1000 + p;
     GetProcessId := λ h, h - 1000;
     DebugActiveProcess := λ p, bool_decide (p = 200);
     CreateProcessW := λ exe commandline flags cwd,
       Some (mkProcessInformation 1200 1207 200 7);
     canonicalPath := directory_of;
     CreateToolhelp32Snapshot := λ flags p,
       Some [mkProcessEntry 4 0; mkProcessEntry 100 4; mkProcessEntry 200 100] |}.

(** The core as constructed: no target, no thread, nothing logged. *)
Definition fresh : DebuggerCore := mkCore None ∅ 0 [].

(** A notification of process 200 with the given code and reporting
    thread. *)
Definition notification (code : DWORD) (tid : tid_t) : DEBUG_EVENT :=
  mkDebugEvent code 200 tid
    (mkU (mkCreateThread 31 32 33) (mkCreateProcess 41 1200 43 44 45) (mkLoadDll 51)).

(** The core right after [open] of [C:/dir/a.exe]. *)
Definition opened : DebuggerCore :=
  mkCore (Some (mkProcess 200 1200 None)) ∅ 7
    [CallGetEnvironmentStringsW;
     CallCreateProcessW "C:/dir/a.exe" (dquote +:+ "C:/dir" +:+ dquote) CREATE_FLAGS "C:/dir";
     CallCloseHandle 1207;
     CallSetDebugPrivilege 1200 false;
     CallFreeEnvironmentStringsW].

(** A core attached to process 200 whose registry holds thread 7. *)
Definition running : DebuggerCore :=
  mkCore (Some (mkProcess 200 1200 None))
         {[7 := initial_thread (notification CREATE_PROCESS_DEBUG_EVENT 7)]} 7 [].

(** The core after the process-created notification of thread 7 has been
    absorbed and the process-exit notification of thread 7 handed out. *)
Definition session_end : DebuggerCore :=
  match
    wait_debug_event example_os 0
      [notification CREATE_PROCESS_DEBUG_EVENT 7; notification EXIT_PROCESS_DEBUG_EVENT 7]
      opened
  with
  | Some (_, s) => s
  | None => fresh
  end.

(** A system that creates no process and keeps process 4 closed to the
    debugger; in all else it is [example_os]. *)
Definition guarded_os : OS :=
  {| OpenProcess := λ p, if p =? 4 then 0 else 1000 + p;
     GetProcessId := GetProcessId example_os;
     DebugActiveProcess := DebugActiveProcess example_os;
     CreateProcessW := λ exe commandline flags cwd, None;
     canonicalPath := canonicalPath example_os;
     CreateToolhelp32Snapshot := CreateToolhelp32Snapshot example_os |}.

(** A security subsystem that opens the token of every process as handle
    900 and knows the debug privilege only. *)
Definition example_tokens : TokenOS :=
  {| OpenProcessToken := λ process access, Some 900;
     LookupPrivilegeValue := λ name, if String.eqb name SE_DEBUG_NAME then Some 20 else None;
     AdjustTokenPrivileges := λ token disableAll tp, true |}.

(** What arrives in a session where a module is loaded, thread 8 starts and
    then traps, and a RIP notification follows. *)
Definition arrivals : list DEBUG_EVENT :=
  [notification LOAD_DLL_DEBUG_EVENT 7;
   notification CREATE_THREAD_DEBUG_EVENT 8;
   notification EXCEPTION_DEBUG_EVENT 8;
   notification RIP_EVENT 7].

End Fixture.

(** ** Proof automation *)

(** Unfolds the monad and the accessors of the object. *)
Ltac run_M :=
  cbv beta iota delta
    [mbind M_bind mret M_ret gets os_call logged set_process set_threads
     set_active_thread deref_process null_dereference
     process_ threads_ active_thread_ os_calls attached stamp].

(** Unfolds the event codes, for [lia]. *)
Ltac codes :=
  unfold CREATE_THREAD_DEBUG_EVENT, EXIT_THREAD_DEBUG_EVENT, CREATE_PROCESS_DEBUG_EVENT,
    LOAD_DLL_DEBUG_EVENT, EXIT_PROCESS_DEBUG_EVENT, EXCEPTION_DEBUG_EVENT, RIP_EVENT in *.

(** Runs [dispatch_debug_event] on a notification whose code is known by
    [Hcode], or is known to differ from the codes of the switch. *)
Ltac dispatch_by Hcode :=
  unfold dispatch_debug_event; rewrite ?Hcode; run_M;
  repeat match goal with
         | H : ?c ≠ ?k |- context [?c =? ?k] =>
             rewrite (proj2 (Z.eqb_neq c k) H)
         end;
  cbn [Z.eqb Pos.eqb EXCEPTION_DEBUG_EVENT CREATE_THREAD_DEBUG_EVENT
       CREATE_PROCESS_DEBUG_EVENT EXIT_THREAD_DEBUG_EVENT EXIT_PROCESS_DEBUG_EVENT
       LOAD_DLL_DEBUG_EVENT RIP_EVENT];
  try match goal with
      | s : DebuggerCore |- _ => destruct s as [[?|] ? ? ?]
      end;
  try reflexivity.

(** ** Running the monad *)

Lemma run_bind {A B} (m : M A) (k : A → M B) (s : DebuggerCore) :
  (m ≫= k) s = match m s with Some (a, s') => k a s' | None => None end.
Proof. reflexivity. Qed.

Section Equations.

Variable os : OS.

Lemma wait_loop_nil msecs s :
  wait_loop os msecs [] s =
  Some (None, [], logged (CallWaitForDebugEvent (wait_timeout msecs)) s).
Proof. reflexivity. Qed.

Lemma wait_loop_cons msecs de rest s :
  wait_loop os msecs (de :: rest) s =
  match dispatch_debug_event os de (logged (CallWaitForDebugEvent (wait_timeout msecs)) s) with
  | Some (true, s') => Some (Some (mkEvent de), rest, s')
  | Some (false, s') =>
      match process_ s' with
      | Some p => wait_loop os msecs rest (logged (CallResume p DEBUG_EXCEPTION_NOT_HANDLED) s')
      | None => None
      end
  | None => None
  end.
Proof.
  cbn [wait_loop]. rewrite run_bind. unfold os_call at 1. rewrite run_bind.
  destruct (dispatch_debug_event os de _) as [[[] s']|]; try reflexivity.
  rewrite run_bind. unfold deref_process at 1, null_dereference.
  destruct (process_ s'); reflexivity.
Qed.

Lemma wait_debug_event_attached msecs evs s :
  attached s = true → wait_debug_event os msecs evs s = wait_loop os msecs evs s.
Proof. intros Ha. unfold wait_debug_event. rewrite run_bind. unfold gets. now rewrite Ha. Qed.

Lemma wait_debug_event_detached msecs evs s :
  attached s = false → wait_debug_event os msecs evs s = Some (None, evs, s).
Proof. intros Ha. unfold wait_debug_event. rewrite run_bind. unfold gets. now rewrite Ha. Qed.

(** *** What one notification does, kind by kind *)

Lemma dispatch_create_thread de s :
  dwDebugEventCode de = CREATE_THREAD_DEBUG_EVENT →
  dispatch_debug_event os de s =
  Some (false,
        mkCore (stamp de <$> process_ s)
               (<[dwThreadId de := mkThread (CreateThread (u de))]> (threads_ s))
               (dwThreadId de) (os_calls s)).
Proof. intros Hcode. dispatch_by Hcode. Qed.

Lemma dispatch_exit_thread de s :
  dwDebugEventCode de = EXIT_THREAD_DEBUG_EVENT →
  dispatch_debug_event os de s =
  Some (false,
        mkCore (stamp de <$> process_ s) (delete (dwThreadId de) (threads_ s))
               (dwThreadId de) (os_calls s)).
Proof. intros Hcode. dispatch_by Hcode. Qed.

Lemma dispatch_create_process de s :
  dwDebugEventCode de = CREATE_PROCESS_DEBUG_EVENT →
  dispatch_debug_event os de s =
  Some (false,
        mkCore (Some (stamp de (PlatformProcess_of_handle os (cp_hProcess (CreateProcessInfo (u de))))))
               (<[dwThreadId de := initial_thread de]> (threads_ s))
               (dwThreadId de)
               (os_calls s ++ [CallCloseHandle (cp_hFile (CreateProcessInfo (u de)))])).
Proof. intros Hcode. dispatch_by Hcode. Qed.

Lemma dispatch_load_dll de s :
  dwDebugEventCode de = LOAD_DLL_DEBUG_EVENT →
  dispatch_debug_event os de s =
  Some (false,
        mkCore (stamp de <$> process_ s) (threads_ s) (dwThreadId de)
               (os_calls s ++ [CallCloseHandle (ld_hFile (LoadDll (u de)))])).
Proof. intros Hcode. dispatch_by Hcode. Qed.

Lemma dispatch_exit_process de s p :
  dwDebugEventCode de = EXIT_PROCESS_DEBUG_EVENT →
  process_ s = Some p →
  dispatch_debug_event os de s =
  Some (true,
        mkCore None (threads_ s) (dwThreadId de)
               (os_calls s ++ [CallResume p DEBUG_CONTINUE])).
Proof.
  intros Hcode Hp. destruct s as [pr th act calls]. cbn in Hp. subst pr.
  dispatch_by Hcode.
Qed.

Lemma dispatch_exception de s :
  dwDebugEventCode de = EXCEPTION_DEBUG_EVENT →
  dispatch_debug_event os de s =
  Some (true,
        mkCore (stamp de <$> process_ s) (threads_ s) (dwThreadId de) (os_calls s)).
Proof. intros Hcode. dispatch_by Hcode. Qed.

(** Every other code ([RIP_EVENT], [UNLOAD_DLL_DEBUG_EVENT],
    [OUTPUT_DEBUG_STRING_EVENT], a code the switch does not know). *)
Lemma dispatch_ignored de s :
  dwDebugEventCode de ≠ CREATE_THREAD_DEBUG_EVENT →
  dwDebugEventCode de ≠ EXIT_THREAD_DEBUG_EVENT →
  dwDebugEventCode de ≠ CREATE_PROCESS_DEBUG_EVENT →
  dwDebugEventCode de ≠ LOAD_DLL_DEBUG_EVENT →
  dwDebugEventCode de ≠ EXIT_PROCESS_DEBUG_EVENT →
  dwDebugEventCode de ≠ EXCEPTION_DEBUG_EVENT →
  dispatch_debug_event os de s =
  Some (false,
        mkCore (stamp de <$> process_ s) (threads_ s) (dwThreadId de) (os_calls s)).
Proof.
  intros H1 H2 H3 H4 H5 H6. dispatch_by H1.
  all: destruct (dwDebugEventCode de =? RIP_EVENT); reflexivity.
Qed.

End Equations.

(** ** The wait loop *)

Section WaitLoop.

Variable os : OS.

Lemma code_cases (c : DWORD) :
  c = CREATE_THREAD_DEBUG_EVENT ∨ c = EXIT_THREAD_DEBUG_EVENT ∨
  c = CREATE_PROCESS_DEBUG_EVENT ∨ c = LOAD_DLL_DEBUG_EVENT ∨
  c = EXIT_PROCESS_DEBUG_EVENT ∨ c = EXCEPTION_DEBUG_EVENT ∨
  (c ≠ CREATE_THREAD_DEBUG_EVENT ∧ c ≠ EXIT_THREAD_DEBUG_EVENT ∧
   c ≠ CREATE_PROCESS_DEBUG_EVENT ∧ c ≠ LOAD_DLL_DEBUG_EVENT ∧
   c ≠ EXIT_PROCESS_DEBUG_EVENT ∧ c ≠ EXCEPTION_DEBUG_EVENT).
Proof. codes. lia. Qed.

Lemma attached_Some s : attached s = true ↔ ∃ p, process_ s = Some p.
Proof.
  unfold attached. destruct (process_ s) as [p|]; split; eauto.
  - discriminate.
  - intros [p Hp]. discriminate.
Qed.

(** C2: on a process-exit notification the loop calls [resume] on the
    target one last time with [DEBUG_CONTINUE] (the last call the log
    holds), drops the target, so that the core no longer reports itself
    attached, and hands the notification to the caller; the notifications
    that follow are left untouched and no resume with
    [DEBUG_EXCEPTION_NOT_HANDLED] is issued. *)
Theorem exit_process_propagates msecs de rest s p :
  process_ s = Some p →
  dwDebugEventCode de = EXIT_PROCESS_DEBUG_EVENT →
  ∃ s',
    wait_debug_event os msecs (de :: rest) s = Some (Some (mkEvent de), rest, s') ∧
    os_calls s' =
      os_calls s ++ [CallWaitForDebugEvent (wait_timeout msecs); CallResume p DEBUG_CONTINUE] ∧
    process_ s' = None ∧
    attached s' = false ∧
    threads_ s' = threads_ s ∧
    active_thread_ s' = dwThreadId de.
Proof.
  intros Hp Hcode.
  assert (Ha : attached s = true) by (apply attached_Some; eauto).
  rewrite (wait_debug_event_attached os msecs (de :: rest) s Ha), wait_loop_cons.
  rewrite (dispatch_exit_process os de _ p Hcode) by exact Hp.
  eexists. split; [reflexivity|]. cbn. rewrite <- app_assoc. auto.
Qed.

Lemma no_entry_for_absent_key {V} (k : Z) (l : list (Z * V)) :
  k ∉ l.*1 → filter (λ kv, kv.1 = k) l = [].
Proof.
  induction l as [|[k' v'] l IH]; intros Hnotin; [reflexivity|].
  cbn in Hnotin. apply not_elem_of_cons in Hnotin as [Hne Hnotin].
  rewrite filter_cons_False by (cbn; congruence). apply IH, Hnotin.
Qed.

(** In a list of pairs with pairwise distinct first components, exactly one
    pair carries a first component that occurs in it. *)
Lemma one_entry_per_key {V} (k : Z) (v : V) (l : list (Z * V)) :
  NoDup l.*1 → (k, v) ∈ l → length (filter (λ kv, kv.1 = k) l) = 1%nat.
Proof.
  induction l as [|[k' v'] l IH]; intros Hnd Hin.
  - inversion Hin.
  - cbn in Hnd. apply NoDup_cons in Hnd as [Hnotin Hnd].
    destruct (decide (k' = k)) as [->|Hne].
    + rewrite filter_cons_True by reflexivity. cbn.
      now rewrite (no_entry_for_absent_key k l Hnotin).
    + rewrite filter_cons_False by (cbn; congruence).
      apply IH; [exact Hnd|].
      apply elem_of_cons in Hin as [Heq|Hin]; [congruence|exact Hin].
Qed.

(** C9: the registry answers every identifier, with [None] for one it does
    not hold; a thread-exit notification for such an identifier is
    absorbed and leaves the registry, and so its size, as it was. *)
Theorem exit_thread_unknown msecs de rest s :
  attached s = true →
  dwDebugEventCode de = EXIT_THREAD_DEBUG_EVENT →
  dwThreadId de ∉ dom (threads_ s) →
  threads_ s !! dwThreadId de = None ∧
  ∃ s1,
    wait_debug_event os msecs (de :: rest) s = wait_debug_event os msecs rest s1 ∧
    threads_ s1 = threads_ s ∧
    size (threads_ s1) = size (threads_ s) ∧
    ∃ s2,
      wait_debug_event os msecs [de] s = Some (None, [], s2) ∧
      threads_ s2 = threads_ s.
Proof.
  intros Ha Hcode Hdom.
  assert (Hnone : threads_ s !! dwThreadId de = None) by (apply not_elem_of_dom; exact Hdom).
  split; [exact Hnone|].
  destruct (proj1 (attached_Some s) Ha) as [p Hp].
  assert (Hstep : ∀ evs,
    wait_debug_event os msecs (de :: evs) s =
    wait_debug_event os msecs evs
      (logged (CallResume (stamp de p) DEBUG_EXCEPTION_NOT_HANDLED)
         (mkCore (Some (stamp de p)) (threads_ s) (dwThreadId de)
                 (os_calls s ++ [CallWaitForDebugEvent (wait_timeout msecs)])))).
  { intros evs.
    rewrite (wait_debug_event_attached os msecs (de :: evs) s Ha), wait_loop_cons.
    rewrite (dispatch_exit_thread os de _ Hcode). cbn [process_ logged threads_ active_thread_ os_calls].
    rewrite Hp. cbn [fmap option_fmap option_map].
    rewrite (delete_id (threads_ s) (dwThreadId de)) by exact Hnone.
    rewrite wait_debug_event_attached by reflexivity. reflexivity. }
  eexists. split; [apply Hstep|]. split; [reflexivity|]. split; [reflexivity|].
  rewrite Hstep. rewrite wait_debug_event_attached by reflexivity.
  rewrite wait_loop_nil. eexists. split; reflexivity.
Qed.

Lemma wait_debug_event_cons msecs de rest s :
  attached s = true →
  wait_debug_event os msecs (de :: rest) s =
  match dispatch_debug_event os de (logged (CallWaitForDebugEvent (wait_timeout msecs)) s) with
  | Some (true, s') => Some (Some (mkEvent de), rest, s')
  | Some (false, s') =>
      match process_ s' with
      | Some p =>
          wait_debug_event os msecs rest (logged (CallResume p DEBUG_EXCEPTION_NOT_HANDLED) s')
      | None => None
      end
  | None => None
  end.
Proof.
  intros Ha. rewrite (wait_debug_event_attached os msecs (de :: rest) s Ha), wait_loop_cons.
  destruct (dispatch_debug_event os de _) as [[[] s']|]; try reflexivity.
  destruct (process_ s') as [p|] eqn:Hp; [|reflexivity].
  symmetry. apply wait_debug_event_attached. unfold attached. cbn. now rewrite Hp.
Qed.

(** C7, as the code has it: whatever the kind of a notification, once the
    loop has dispatched it the active-thread identifier is the thread
    identifier it carries.  For every kind but process exit a target is
    left and the notification is stamped on it as its last event, before
    the automatic resume or the return to the caller.  On process exit the
    target has been dropped, so there is nothing to stamp: the
    notification reaches the caller in the returned event only. *)
Theorem notification_recorded msecs de rest s :
  attached s = true →
  ∃ propagate s1,
    dispatch_debug_event os de (logged (CallWaitForDebugEvent (wait_timeout msecs)) s)
      = Some (propagate, s1) ∧
    wait_debug_event os msecs (de :: rest) s =
      match propagate, process_ s1 with
      | true, _ => Some (Some (mkEvent de), rest, s1)
      | false, Some p =>
          wait_debug_event os msecs rest (logged (CallResume p DEBUG_EXCEPTION_NOT_HANDLED) s1)
      | false, None => None
      end ∧
    active_thread_ s1 = dwThreadId de ∧
    (dwDebugEventCode de ≠ EXIT_PROCESS_DEBUG_EVENT →
     ∃ p, process_ s1 = Some p ∧ lastEvent_ p = Some de) ∧
    (dwDebugEventCode de = EXIT_PROCESS_DEBUG_EVENT →
     process_ s1 = None ∧ propagate = true).
Proof.
  intros Ha. rewrite (wait_debug_event_cons msecs de rest s Ha).
  destruct (proj1 (attached_Some s) Ha) as [p0 Hp0].
  set (s0 := logged (CallWaitForDebugEvent (wait_timeout msecs)) s).
  assert (Hp0' : process_ s0 = Some p0) by exact Hp0.
  destruct (code_cases (dwDebugEventCode de))
    as [Hc|[Hc|[Hc|[Hc|[Hc|[Hc|(H1 & H2 & H3 & H4 & H5 & H6)]]]]]].
  - rewrite (dispatch_create_thread os de s0 Hc).
    eexists _, _. split; [reflexivity|]. cbn. rewrite Hp0. cbn.
    repeat split; eauto; codes; lia.
  - rewrite (dispatch_exit_thread os de s0 Hc).
    eexists _, _. split; [reflexivity|]. cbn. rewrite Hp0. cbn.
    repeat split; eauto; codes; lia.
  - rewrite (dispatch_create_process os de s0 Hc).
    eexists _, _. split; [reflexivity|]. cbn.
    repeat split; eauto; codes; lia.
  - rewrite (dispatch_load_dll os de s0 Hc).
    eexists _, _. split; [reflexivity|]. cbn. rewrite Hp0. cbn.
    repeat split; eauto; codes; lia.
  - rewrite (dispatch_exit_process os de s0 p0 Hc Hp0').
    eexists _, _. split; [reflexivity|]. cbn.
    repeat split; eauto; codes; lia.
  - rewrite (dispatch_exception os de s0 Hc).
    eexists _, _. split; [reflexivity|]. cbn. rewrite Hp0. cbn.
    repeat split; eauto; codes; lia.
  - rewrite (dispatch_ignored os de s0 H1 H2 H3 H4 H5 H6).
    eexists _, _. split; [reflexivity|]. cbn. rewrite Hp0. cbn.
    repeat split; eauto; codes; lia.
Qed.

End WaitLoop.

(** ** The session life cycle *)

Section Lifecycle.

Variable os : OS.

Lemma detach_attached s p :
  process_ s = Some p →
  detach s =
  Some (Ok,
        mkCore None ∅ (active_thread_ s)
               (os_calls s ++ [CallClearBreakpoints;
                               CallContinueDebugEvent (pid p) (active_thread_ s) DBG_CONTINUE;
                               CallDebugActiveProcessStop (pid p)])).
Proof.
  intros Hp. destruct s as [pr th act calls]. cbn in Hp. subst pr.
  unfold detach. run_M. cbn. rewrite <- !app_assoc. reflexivity.
Qed.

Lemma detach_detached s :
  process_ s = None → detach s = Some (Ok, s).
Proof.
  intros Hp. destruct s as [pr th act calls]. cbn in Hp. subst pr. reflexivity.
Qed.

(** [detach] always returns, with [Status::Ok] and a core that is not
    attached. *)
Lemma detach_returns s :
  ∃ s1, detach s = Some (Ok, s1) ∧ process_ s1 = None ∧
        active_thread_ s1 = active_thread_ s ∧
        (threads_ s1 = ∅ ∨ s1 = s).
Proof.
  destruct (process_ s) as [p|] eqn:Hp.
  - rewrite (detach_attached s p Hp). eexists. repeat split. now left.
  - rewrite (detach_detached s Hp). eexists. repeat split; auto.
Qed.

Lemma attach_run (p : pid_t) s s1 :
  detach s = Some (Ok, s1) →
  attach os p s =
  if DebugActiveProcess os p then
    Some (Ok, mkCore (Some (PlatformProcess_of_pid os p)) (threads_ s1) (active_thread_ s1)
                     (os_calls s1 ++ [CallDebugActiveProcess p]))
  else
    Some (Error "Error DebuggerCore::attach", logged (CallDebugActiveProcess p) s1).
Proof.
  intros Hd. unfold attach. rewrite run_bind, Hd.
  destruct (DebugActiveProcess os p); reflexivity.
Qed.

(** C4: whatever the core was doing before, when the system refuses the
    attachment [attach] answers with its own error, the core is not
    attached afterwards, the registry holds nothing it did not hold before
    and the active thread is as it was; on a core that was not attached the
    object is left exactly as it was (only the ghost log grows).  When the
    system grants the attachment [attach] answers [Status::Ok] and the core
    is attached to a process object for that identifier. *)
Theorem attach_outcome (p : pid_t) (s : DebuggerCore) :
  (DebugActiveProcess os p = false →
   ∃ s',
     attach os p s = Some (Error "Error DebuggerCore::attach", s') ∧
     attached s' = false ∧
     threads_ s' ⊆ threads_ s ∧
     active_thread_ s' = active_thread_ s ∧
     (attached s = false → s' = logged (CallDebugActiveProcess p) s)) ∧
  (DebugActiveProcess os p = true →
   ∃ s' target,
     attach os p s = Some (Ok, s') ∧
     attached s' = true ∧
     process_ s' = Some target ∧
     pid target = p ∧
     threads_ s' ⊆ threads_ s).
Proof.
  destruct (detach_returns s) as (s1 & Hd & Hp1 & Hact & Hths).
  assert (Hsub : threads_ s1 ⊆ threads_ s).
  { destruct Hths as [->| ->]; [apply map_empty_subseteq|reflexivity]. }
  rewrite (attach_run p s s1 Hd). split; intros ->.
  - eexists. split; [reflexivity|]. unfold attached. cbn. rewrite Hp1.
    repeat split; auto.
    intros Hdet. destruct (process_ s) as [q|] eqn:Hq; [discriminate|].
    rewrite (detach_detached s Hq) in Hd. congruence.
  - eexists _, _. split; [reflexivity|]. cbn. auto.
Qed.

(** C5, as the code has it: [detach] never fails; on a core that is not
    attached it changes nothing; a second call right after the first
    changes nothing either; after each of the two calls the core is not
    attached, and the registry is empty provided the core was attached
    before the first call or the registry was empty already. *)
Theorem detach_twice (s : DebuggerCore) :
  ∃ s1,
    detach s = Some (Ok, s1) ∧
    detach s1 = Some (Ok, s1) ∧
    attached s1 = false ∧
    (attached s = false → s1 = s) ∧
    (attached s = true ∨ threads_ s = ∅ → threads_ s1 = ∅).
Proof.
  destruct (process_ s) as [p|] eqn:Hp.
  - rewrite (detach_attached s p Hp). eexists. split; [reflexivity|].
    split; [apply detach_detached; reflexivity|].
    split; [reflexivity|]. split; [|reflexivity].
    unfold attached. rewrite Hp. discriminate.
  - rewrite (detach_detached s Hp). exists s.
    split; [reflexivity|]. split; [apply detach_detached, Hp|].
    unfold attached. rewrite Hp. split; [reflexivity|]. split; [reflexivity|].
    intros [?|?]; [discriminate|assumption].
Qed.

(** C10: [kill] on a core without a target does nothing at all: no call
    leaves the object, and target, registry and active thread stay as they
    are. *)
Theorem kill_detached (s : DebuggerCore) :
  attached s = false → kill s = Some (tt, s).
Proof.
  unfold attached, kill. rewrite run_bind. unfold gets.
  destruct (process_ s); [discriminate|reflexivity].
Qed.

End Lifecycle.

(** ** Spawning a process and looking up a parent *)

Lemma string_app_assoc (a b c : string) : (a +:+ b) +:+ c = a +:+ (b +:+ c).
Proof.
  induction a as [|x a IH]; [reflexivity|].
  change (String x ((a +:+ b) +:+ c) = String x (a +:+ (b +:+ c))). now rewrite IH.
Qed.

Lemma string_app_empty_r (a : string) : a +:+ "" = a.
Proof.
  induction a as [|x a IH]; [reflexivity|].
  change (String x (a +:+ "") = String x a). now rewrite IH.
Qed.

Section OpenAndEnumerate.

Variable os : OS.

(** The command line is the quoted [canonicalPath()] of the executable
    followed by every argument, in the order given. *)
Lemma command_line_tokens path args :
  command_line os path args =
  dquote +:+ canonicalPath os path +:+ dquote +:+ blank_separated args.
Proof.
  unfold command_line.
  assert (Hfold : ∀ acc,
    foldl (λ command_str arg, (command_str +:+ " ") +:+ arg) acc args =
    acc +:+ blank_separated args).
  { induction args as [|arg args IH]; intros acc.
    - symmetry. apply string_app_empty_r.
    - cbn [foldl blank_separated]. rewrite IH. now rewrite !string_app_assoc. }
  case_bool_decide as Hnil.
  - subst args. cbn [blank_separated]. now rewrite !string_app_empty_r.
  - rewrite Hfold. now rewrite !string_app_assoc.
Qed.

(** X13: what [open] asks of the system.  After the leading [detach] the
    calls of [open] are, in this order and with nothing else: the taking of
    the environment block; one [CreateProcessW], and only one, for the
    executable, with a command line that is the quoted [canonicalPath()] of
    the executable followed by the arguments, each after one blank, in the
    order given, with the creation flags, and with the working directory
    [cwd], or that same [canonicalPath()] when [cwd] is empty; when the
    process was created, the closing of the initial thread handle and the
    dropping of the privilege; the release of the environment block.  The
    status is [Status::Ok] exactly when the process was created. *)
Lemma open_request path cwd args tty s :
  ∃ s0 s',
    detach s = Some (Ok, s0) ∧
    open os path cwd args tty s =
      Some (match CreateProcessW os path
                    (dquote +:+ canonicalPath os path +:+ dquote +:+ blank_separated args)
                    CREATE_FLAGS (if isEmpty cwd then canonicalPath os path else cwd)
            with
            | Some _ => Ok
            | None => Error "Error DebuggerCore::open"
            end, s') ∧
    os_calls s' =
      os_calls s0 ++
      [CallGetEnvironmentStringsW;
       CallCreateProcessW path
         (dquote +:+ canonicalPath os path +:+ dquote +:+ blank_separated args)
         CREATE_FLAGS
         (if isEmpty cwd then canonicalPath os path else cwd)] ++
      match CreateProcessW os path
              (dquote +:+ canonicalPath os path +:+ dquote +:+ blank_separated args)
              CREATE_FLAGS (if isEmpty cwd then canonicalPath os path else cwd)
      with
      | Some process_info =>
          [CallCloseHandle (pi_hThread process_info);
           CallSetDebugPrivilege (pi_hProcess process_info) false;
           CallFreeEnvironmentStringsW]
      | None => [CallFreeEnvironmentStringsW]
      end.
Proof.
  destruct (detach_returns s) as (s0 & Hd & _).
  exists s0. unfold open. cbv zeta. rewrite run_bind, Hd, command_line_tokens.
  set (cmd := dquote +:+ canonicalPath os path +:+ dquote +:+ blank_separated args).
  set (tcwd := if isEmpty cwd then canonicalPath os path else cwd).
  destruct (CreateProcessW os path cmd CREATE_FLAGS tcwd) as [process_info|] eqn:Hcp.
  - eexists. split; [reflexivity|]. split; [reflexivity|].
    cbn. rewrite <- !app_assoc. reflexivity.
  - eexists. split; [reflexivity|]. split; [reflexivity|].
    cbn. rewrite <- !app_assoc. reflexivity.
Qed.

Lemma scan_snapshot_absent (p parent : pid_t) entries :
  p ∉ th32ProcessID <$> entries → scan_snapshot p parent entries = parent.
Proof.
  induction entries as [|pe entries IH]; intros Hnotin; [reflexivity|].
  cbn in Hnotin. apply not_elem_of_cons in Hnotin as [Hne Hnotin].
  cbn. rewrite (proj2 (Z.eqb_neq _ _) Hne). apply IH, Hnotin.
Qed.

Lemma scan_snapshot_first (p parent : pid_t) before pe after :
  p ∉ th32ProcessID <$> before →
  th32ProcessID pe = p →
  scan_snapshot p parent (before ++ pe :: after) = th32ParentProcessID pe.
Proof.
  induction before as [|pe' before IH]; intros Hnotin Hpe.
  - cbn. now rewrite (proj2 (Z.eqb_eq _ _) (eq_sym Hpe)).
  - cbn in Hnotin. apply not_elem_of_cons in Hnotin as [Hne Hnotin].
    cbn. rewrite (proj2 (Z.eqb_neq _ _) Hne). now apply IH.
Qed.

(** C8: with a snapshot at hand, [parent_pid] answers the parent recorded
    in the first entry whose process identifier is the one asked for (the
    entry, when identifiers in the snapshot are pairwise distinct), and
    the value [1] it starts from when no entry has that identifier. *)
Theorem parent_pid_snapshot (p : pid_t) (entries : list PROCESSENTRY32W) :
  CreateToolhelp32Snapshot os TH32CS_SNAPPROCESS p = Some entries →
  (∀ before pe after,
     entries = before ++ pe :: after →
     p ∉ th32ProcessID <$> before →
     th32ProcessID pe = p →
     parent_pid os p = th32ParentProcessID pe) ∧
  (∀ pe,
     NoDup (th32ProcessID <$> entries) →
     pe ∈ entries →
     th32ProcessID pe = p →
     parent_pid os p = th32ParentProcessID pe) ∧
  (p ∉ th32ProcessID <$> entries → parent_pid os p = 1).
Proof.
  intros Hsnap. unfold parent_pid. rewrite Hsnap.
  split; [|split].
  - intros before pe after -> Hnotin Hpe. now apply scan_snapshot_first.
  - intros pe Hnd Hin Hpe.
    apply list_elem_of_split in Hin as (before & after & ->).
    apply scan_snapshot_first; [|exact Hpe].
    rewrite fmap_app, fmap_cons, Hpe in Hnd.
    apply NoDup_app in Hnd as (_ & Hdisj & _).
    intros Hin. apply (Hdisj p Hin). left.
  - apply scan_snapshot_absent.
Qed.

End OpenAndEnumerate.

(** ** More on the wait loop *)

Section WaitLoopRuns.

Variable os : OS.

Lemma propagates_true de :
  propagates de = true ↔
  dwDebugEventCode de = EXCEPTION_DEBUG_EVENT ∨
  dwDebugEventCode de = EXIT_PROCESS_DEBUG_EVENT.
Proof. unfold propagates. rewrite orb_true_iff, !Z.eqb_eq. reflexivity. Qed.

Lemma propagates_false de :
  propagates de = false ↔
  dwDebugEventCode de ≠ EXCEPTION_DEBUG_EVENT ∧
  dwDebugEventCode de ≠ EXIT_PROCESS_DEBUG_EVENT.
Proof. unfold propagates. rewrite orb_false_iff, !Z.eqb_neq. reflexivity. Qed.

(** One turn of the loop on a notification the switch absorbs. *)
Lemma wait_loop_absorbing msecs de rest s :
  attached s = true →
  propagates de = false →
  ∃ s1 p closes,
    wait_loop os msecs (de :: rest) s =
      wait_loop os msecs rest (logged (CallResume p DEBUG_EXCEPTION_NOT_HANDLED) s1) ∧
    process_ s1 = Some p ∧
    lastEvent_ p = Some de ∧
    active_thread_ s1 = dwThreadId de ∧
    dom (threads_ s1) = live_step (dom (threads_ s)) de ∧
    os_calls s1 = os_calls s ++ CallWaitForDebugEvent (wait_timeout msecs) :: closes ∧
    Forall is_close closes.
Proof.
  intros Ha Hprop. apply propagates_false in Hprop as [Hexc Hexit].
  destruct (proj1 (attached_Some s) Ha) as [p0 Hp0].
  rewrite wait_loop_cons.
  set (s0 := logged (CallWaitForDebugEvent (wait_timeout msecs)) s).
  unfold live_step.
  destruct (code_cases (dwDebugEventCode de))
    as [Hc|[Hc|[Hc|[Hc|[Hc|[Hc|(H1 & H2 & H3 & H4 & H5 & H6)]]]]]];
    try contradiction.
  - rewrite (dispatch_create_thread os de s0 Hc). cbn. rewrite Hp0. cbn.
    eexists _, _, []. split; [reflexivity|]. cbn [threads_ process_ active_thread_ os_calls logged lastEvent_ stamp s0]. rewrite Hc, dom_insert_L. cbn.
    repeat split; auto.
  - rewrite (dispatch_exit_thread os de s0 Hc). cbn. rewrite Hp0. cbn.
    eexists _, _, []. split; [reflexivity|]. cbn [threads_ process_ active_thread_ os_calls logged lastEvent_ stamp s0]. rewrite Hc, dom_delete_L. cbn.
    repeat split; auto.
  - rewrite (dispatch_create_process os de s0 Hc). cbn.
    eexists _, _, [_]. split; [reflexivity|]. cbn [threads_ process_ active_thread_ os_calls logged lastEvent_ stamp s0]. rewrite Hc, dom_insert_L. cbn.
    rewrite <- app_assoc. repeat split; auto. repeat constructor. eexists; reflexivity.
  - rewrite (dispatch_load_dll os de s0 Hc). cbn. rewrite Hp0. cbn.
    eexists _, _, [_]. split; [reflexivity|]. cbn [threads_ process_ active_thread_ os_calls logged lastEvent_ stamp s0]. rewrite Hc. cbn.
    rewrite <- app_assoc. repeat split; auto. repeat constructor. eexists; reflexivity.
  - rewrite (dispatch_ignored os de s0 H1 H2 H3 H4 H5 H6). cbn. rewrite Hp0. cbn.
    eexists _, _, []. split; [reflexivity|].
    cbn [threads_ process_ active_thread_ os_calls logged lastEvent_ stamp s0].
    rewrite (proj2 (Z.eqb_neq _ _) H1), (proj2 (Z.eqb_neq _ _) H2),
      (proj2 (Z.eqb_neq _ _) H3). cbn.
    repeat split; auto.
Qed.

(** One turn of the loop on a notification the switch hands out. *)
Lemma wait_loop_propagating msecs de rest s p :
  process_ s = Some p →
  propagates de = true →
  ∃ s1,
    wait_loop os msecs (de :: rest) s = Some (Some (mkEvent de), rest, s1) ∧
    active_thread_ s1 = dwThreadId de ∧
    threads_ s1 = threads_ s ∧
    ((dwDebugEventCode de = EXCEPTION_DEBUG_EVENT ∧
      process_ s1 = Some (stamp de p) ∧
      os_calls s1 = os_calls s ++ [CallWaitForDebugEvent (wait_timeout msecs)]) ∨
     (dwDebugEventCode de = EXIT_PROCESS_DEBUG_EVENT ∧
      process_ s1 = None ∧
      os_calls s1 = os_calls s ++ [CallWaitForDebugEvent (wait_timeout msecs);
                                   CallResume p DEBUG_CONTINUE])).
Proof.
  intros Hp Hprop. apply propagates_true in Hprop as [Hc|Hc]; rewrite wait_loop_cons.
  - rewrite (dispatch_exception os de _ Hc). cbn. rewrite Hp. cbn.
    eexists. split; [reflexivity|]. cbn. split; [reflexivity|]. split; [reflexivity|].
    left. auto.
  - rewrite (dispatch_exit_process os de _ p Hc) by exact Hp.
    eexists. split; [reflexivity|]. cbn. rewrite <- app_assoc.
    split; [reflexivity|]. split; [reflexivity|]. right. auto.
Qed.

(** What one run of the loop amounts to, from an attached core: the
    notifications it takes, the event it hands out, the registry, the
    calls, the target and active thread it leaves. *)
Lemma wait_loop_outcome msecs evs :
  ∀ s, attached s = true →
  ∃ r rest' s' consumed added,
    wait_loop os msecs evs s = Some (r, rest', s') ∧
    evs = consumed ++ rest' ∧
    match r with
    | Some e =>
        ∃ before, consumed = before ++ [event e] ∧
                  Forall (λ de, propagates de = false) before ∧
                  propagates (event e) = true
    | None => rest' = [] ∧ Forall (λ de, propagates de = false) consumed
    end ∧
    dom (threads_ s') = live_threads (dom (threads_ s)) consumed ∧
    os_calls s' = os_calls s ++ added ∧
    loop_trace (wait_timeout msecs) added ∧
    match r with
    | Some e =>
        active_thread_ s' = dwThreadId (event e) ∧
        if dwDebugEventCode (event e) =? EXIT_PROCESS_DEBUG_EVENT
        then process_ s' = None
        else ∃ p, process_ s' = Some p ∧ lastEvent_ p = Some (event e)
    | None =>
        attached s' = true ∧
        ∀ de, last evs = Some de →
              active_thread_ s' = dwThreadId de ∧
              ∃ p, process_ s' = Some p ∧ lastEvent_ p = Some de
    end.
Proof.
  induction evs as [|de rest IH]; intros s Ha.
  - rewrite wait_loop_nil.
    exists None, [], (logged (CallWaitForDebugEvent (wait_timeout msecs)) s), [],
      [CallWaitForDebugEvent (wait_timeout msecs)].
    split; [reflexivity|]. split; [reflexivity|]. split; [split; constructor|].
    split; [reflexivity|]. split; [reflexivity|]. split; [constructor|].
    split; [exact Ha|]. intros de Hlast. discriminate Hlast.
  - destruct (propagates de) eqn:Hprop.
    + destruct (proj1 (attached_Some s) Ha) as [p Hp].
      destruct (wait_loop_propagating msecs de rest s p Hp Hprop)
        as (s1 & Hrun & Hact & Hths & [(Hc & Hp1 & Hcalls)|(Hc & Hp1 & Hcalls)]).
      * exists (Some (mkEvent de)), rest, s1, [de], [CallWaitForDebugEvent (wait_timeout msecs)].
        split; [exact Hrun|]. split; [reflexivity|].
        split; [exists []; repeat split; [constructor|exact Hprop]|].
        split.
        { rewrite Hths. unfold live_threads, live_step. cbn [foldl]. rewrite Hc. reflexivity. }
        split; [exact Hcalls|]. split; [constructor|].
        split; [exact Hact|]. cbn [event]. rewrite Hc. cbn. eauto.
      * exists (Some (mkEvent de)), rest, s1, [de],
          [CallWaitForDebugEvent (wait_timeout msecs); CallResume p DEBUG_CONTINUE].
        split; [exact Hrun|]. split; [reflexivity|].
        split; [exists []; repeat split; [constructor|exact Hprop]|].
        split.
        { rewrite Hths. unfold live_threads, live_step. cbn [foldl]. rewrite Hc. reflexivity. }
        split; [exact Hcalls|]. split; [constructor|].
        split; [exact Hact|]. cbn [event]. rewrite Hc. cbn. exact Hp1.
    + destruct (wait_loop_absorbing msecs de rest s Ha Hprop)
        as (s1 & p & closes & Hrun & Hp & Hlast & Hact & Hdom & Hcalls & Hcl).
      set (s2 := logged (CallResume p DEBUG_EXCEPTION_NOT_HANDLED) s1) in *.
      assert (Ha2 : attached s2 = true) by (apply attached_Some; exists p; exact Hp).
      destruct (IH s2 Ha2)
        as (r & rest' & s' & consumed & added & Hrun' & Hevs & HA & HB & HC & Htr & HD).
      exists r, rest', s', (de :: consumed),
        (CallWaitForDebugEvent (wait_timeout msecs) ::
         closes ++ CallResume p DEBUG_EXCEPTION_NOT_HANDLED :: added).
      split; [rewrite Hrun; exact Hrun'|].
      split; [cbn; f_equal; exact Hevs|].
      split.
      { destruct r as [e|].
        - destruct HA as (before & -> & Hbefore & He).
          exists (de :: before). repeat split; [constructor; assumption|exact He].
        - destruct HA as [-> Hall]. split; [reflexivity|constructor; assumption]. }
      split.
      { rewrite HB. unfold live_threads. cbn [foldl]. rewrite <- Hdom. reflexivity. }
      split.
      { rewrite HC. unfold s2, logged. cbn [os_calls]. rewrite Hcalls.
        rewrite <- !app_assoc. reflexivity. }
      split; [constructor; assumption|].
      destruct r as [e|]; [exact HD|].
      destruct HD as [Ha' Hlast']. split; [exact Ha'|].
      intros d Hd. destruct rest as [|x rest2].
      * cbn in Hd. injection Hd as <-.
        rewrite wait_loop_nil in Hrun'. injection Hrun' as _ <-.
        split; [exact Hact|]. exists p. split; [exact Hp|exact Hlast].
      * apply Hlast'. exact Hd.
Qed.

(** X1: [wait_debug_event] returns from every state of the core and
    whatever notifications arrive: it never dereferences a null target.
    What it leaves undelivered is the tail of what was to arrive; on a core
    without a target it takes nothing, calls nothing and changes nothing. *)
Theorem wait_debug_event_never_faults msecs evs s :
  ∃ r rest' s' consumed,
    wait_debug_event os msecs evs s = Some (r, rest', s') ∧
    evs = consumed ++ rest' ∧
    (attached s = false → r = None ∧ rest' = evs ∧ s' = s).
Proof.
  destruct (attached s) eqn:Ha.
  - rewrite (wait_debug_event_attached os msecs evs s Ha).
    destruct (wait_loop_outcome msecs evs s Ha)
      as (r & rest' & s' & consumed & added & Hrun & Hevs & _).
    exists r, rest', s', consumed. split; [exact Hrun|]. split; [exact Hevs|]. discriminate.
  - rewrite (wait_debug_event_detached os msecs evs s Ha).
    exists None, evs, s, []. auto.
Qed.

(** X2: notifications are taken in arrival order and the call stops at the
    first one that is an exception or a process exit: the event returned is
    that notification, everything before it was absorbed, everything after
    it is left.  When no event is returned every notification was taken
    and none was an exception or a process exit. *)
Theorem wait_debug_event_first_propagating msecs evs s :
  attached s = true →
  ∃ r rest' s',
    wait_debug_event os msecs evs s = Some (r, rest', s') ∧
    match r with
    | Some e =>
        ∃ before, evs = before ++ event e :: rest' ∧
                  Forall (λ de, propagates de = false) before ∧
                  propagates (event e) = true
    | None => rest' = [] ∧ Forall (λ de, propagates de = false) evs
    end.
Proof.
  intros Ha. rewrite (wait_debug_event_attached os msecs evs s Ha).
  destruct (wait_loop_outcome msecs evs s Ha)
    as (r & rest' & s' & consumed & added & Hrun & Hevs & HA & _).
  exists r, rest', s'. split; [exact Hrun|]. destruct r as [e|].
  - destruct HA as (before & -> & Hbefore & He). exists before.
    rewrite Hevs, <- app_assoc. auto.
  - destruct HA as [-> Hall]. rewrite app_nil_r in Hevs. subst consumed. auto.
Qed.

(** X3: the keys of the registry follow the notifications taken: after the
    call they are the keys it had before, plus the reporting thread of
    every thread-created and process-created notification, minus that of
    every thread-exited notification, applied in arrival order. *)
Theorem wait_debug_event_registry_keys msecs evs s :
  attached s = true →
  ∃ r rest' s' consumed,
    wait_debug_event os msecs evs s = Some (r, rest', s') ∧
    evs = consumed ++ rest' ∧
    dom (threads_ s') = live_threads (dom (threads_ s)) consumed.
Proof.
  intros Ha. rewrite (wait_debug_event_attached os msecs evs s Ha).
  destruct (wait_loop_outcome msecs evs s Ha)
    as (r & rest' & s' & consumed & added & Hrun & Hevs & _ & Hdom & _).
  exists r, rest', s', consumed. auto.
Qed.

(** X4: the calls one [wait_debug_event] makes follow the shape
    [loop_trace]: no second [WaitForDebugEvent] is issued before the
    notification the first delivered has been resumed with
    [DEBUG_EXCEPTION_NOT_HANDLED], every wait carries the same timeout, and
    the call ends on a wait, or on the [DEBUG_CONTINUE] resume of a process
    exit. *)
Theorem wait_debug_event_call_protocol msecs evs s :
  attached s = true →
  ∃ r rest' s' added,
    wait_debug_event os msecs evs s = Some (r, rest', s') ∧
    os_calls s' = os_calls s ++ added ∧
    loop_trace (wait_timeout msecs) added.
Proof.
  intros Ha. rewrite (wait_debug_event_attached os msecs evs s Ha).
  destruct (wait_loop_outcome msecs evs s Ha)
    as (r & rest' & s' & consumed & added & Hrun & _ & _ & _ & Hcalls & Htrace & _).
  exists r, rest', s', added. auto.
Qed.

(** X5: what the call leaves for the caller's resume.  When an event is
    returned the active thread is the thread that reported it; for an
    exception the target is kept and carries the event as its last event;
    for a process exit the target is gone.  When no event is returned the
    core is still attached, and the active thread and the last event of
    the target are those of the last notification taken. *)
Theorem wait_debug_event_leaves_context msecs evs s :
  attached s = true →
  ∃ r rest' s',
    wait_debug_event os msecs evs s = Some (r, rest', s') ∧
    match r with
    | Some e =>
        active_thread_ s' = dwThreadId (event e) ∧
        if dwDebugEventCode (event e) =? EXIT_PROCESS_DEBUG_EVENT
        then process_ s' = None
        else ∃ p, process_ s' = Some p ∧ lastEvent_ p = Some (event e)
    | None =>
        attached s' = true ∧
        ∀ de, last evs = Some de →
              active_thread_ s' = dwThreadId de ∧
              ∃ p, process_ s' = Some p ∧ lastEvent_ p = Some de
    end.
Proof.
  intros Ha. rewrite (wait_debug_event_attached os msecs evs s Ha).
  destruct (wait_loop_outcome msecs evs s Ha)
    as (r & rest' & s' & consumed & added & Hrun & _ & _ & _ & _ & _ & HD).
  exists r, rest', s'. auto.
Qed.

(** X6: an exception notification is handed to the caller at once and
    without any resume: the only call is the wait, the target is kept with
    the notification stamped on it, the registry is untouched, and the
    notifications that follow are left. *)
Theorem exception_propagates msecs de rest s p :
  process_ s = Some p →
  dwDebugEventCode de = EXCEPTION_DEBUG_EVENT →
  wait_debug_event os msecs (de :: rest) s =
  Some (Some (mkEvent de), rest,
        mkCore (Some (stamp de p)) (threads_ s) (dwThreadId de)
               (os_calls s ++ [CallWaitForDebugEvent (wait_timeout msecs)])).
Proof.
  intros Hp Hcode.
  assert (Ha : attached s = true) by (apply attached_Some; eauto).
  rewrite (wait_debug_event_attached os msecs (de :: rest) s Ha), wait_loop_cons.
  rewrite (dispatch_exception os de _ Hcode). cbn. rewrite Hp. reflexivity.
Qed.

(** What dispatching one absorbed notification leaves, from a core with a
    target. *)
Lemma dispatch_absorbs de s :
  attached s = true →
  propagates de = false →
  ∃ s1 p closes,
    dispatch_debug_event os de s = Some (false, s1) ∧
    process_ s1 = Some p ∧
    lastEvent_ p = Some de ∧
    active_thread_ s1 = dwThreadId de ∧
    os_calls s1 = os_calls s ++ closes ∧
    Forall is_close closes.
Proof.
  intros Ha Hprop. apply propagates_false in Hprop as [Hexc Hexit].
  destruct (proj1 (attached_Some s) Ha) as [p0 Hp0].
  destruct (code_cases (dwDebugEventCode de))
    as [Hc|[Hc|[Hc|[Hc|[Hc|[Hc|(H1 & H2 & H3 & H4 & H5 & H6)]]]]]];
    try contradiction.
  - rewrite (dispatch_create_thread os de s Hc), Hp0.
    eexists _, _, []. split; [reflexivity|]. cbn. rewrite app_nil_r. repeat split; auto.
  - rewrite (dispatch_exit_thread os de s Hc), Hp0.
    eexists _, _, []. split; [reflexivity|]. cbn. rewrite app_nil_r. repeat split; auto.
  - rewrite (dispatch_create_process os de s Hc).
    eexists _, _, [_]. split; [reflexivity|]. cbn.
    repeat split; auto. repeat constructor. eexists; reflexivity.
  - rewrite (dispatch_load_dll os de s Hc), Hp0.
    eexists _, _, [_]. split; [reflexivity|]. cbn.
    repeat split; auto. repeat constructor. eexists; reflexivity.
  - rewrite (dispatch_ignored os de s H1 H2 H3 H4 H5 H6), Hp0.
    eexists _, _, []. split; [reflexivity|]. cbn. rewrite app_nil_r. repeat split; auto.
Qed.

(** How a run on [rest] from the core an absorbed notification leaves
    carries over to the run that starts with that notification. *)
Lemma wait_debug_event_after_absorbed msecs de rest s s1 p :
  attached s = true →
  dispatch_debug_event os de (logged (CallWaitForDebugEvent (wait_timeout msecs)) s)
    = Some (false, s1) →
  process_ s1 = Some p →
  ∃ r rest' s' added,
    wait_debug_event os msecs (de :: rest) s = Some (r, rest', s') ∧
    wait_debug_event os msecs rest (logged (CallResume p DEBUG_EXCEPTION_NOT_HANDLED) s1)
      = Some (r, rest', s') ∧
    os_calls s' = os_calls s1 ++ CallResume p DEBUG_EXCEPTION_NOT_HANDLED :: added ∧
    loop_trace (wait_timeout msecs) added ∧
    match r with
    | Some e =>
        ∃ before, rest = before ++ event e :: rest' ∧
                  Forall (λ de', propagates de' = false) before ∧
                  propagates (event e) = true
    | None => rest' = [] ∧ Forall (λ de', propagates de' = false) rest
    end ∧
    (rest = [] →
     r = None ∧
     s' = logged (CallWaitForDebugEvent (wait_timeout msecs))
            (logged (CallResume p DEBUG_EXCEPTION_NOT_HANDLED) s1)).
Proof.
  intros Ha Hd Hp.
  set (s2 := logged (CallResume p DEBUG_EXCEPTION_NOT_HANDLED) s1).
  assert (Ha2 : attached s2 = true) by (apply attached_Some; exists p; exact Hp).
  destruct (wait_loop_outcome msecs rest s2 Ha2)
    as (r & rest' & s' & consumed & added & Hrun & Hevs & HA & _ & Hcalls & Htrace & _).
  exists r, rest', s', added.
  split.
  { rewrite (wait_debug_event_cons os msecs de rest s Ha), Hd, Hp.
    fold s2. rewrite (wait_debug_event_attached os msecs rest s2 Ha2). exact Hrun. }
  split; [rewrite (wait_debug_event_attached os msecs rest s2 Ha2); exact Hrun|].
  split.
  { rewrite Hcalls. unfold s2, logged. cbn [os_calls]. rewrite <- app_assoc. reflexivity. }
  split; [exact Htrace|]. split.
  { destruct r as [e|].
    - destruct HA as (before & -> & Hbefore & He). exists before.
      rewrite Hevs, <- app_assoc. auto.
    - destruct HA as [-> Hall]. rewrite app_nil_r in Hevs. subst consumed. auto. }
  intros ->. rewrite wait_loop_nil in Hrun. injection Hrun as <- _ <-. auto.
Qed.

(** C1: a notification that is neither an exception nor a process exit
    (thread created, thread exited, process created, module loaded, RIP,
    or a code the switch does not know) is not returned by the iteration
    that receives it.  Dispatching it leaves a target, stamped with the
    notification, and between the wait and the end of the dispatch only
    file handles are closed.  The call then resumes that target with
    [DEBUG_EXCEPTION_NOT_HANDLED] and waits again: the calls of the whole
    call are the wait, the closes, that resume, and then those of a further
    run of the loop, which starts with a wait.  The call returns; an event
    it returns is the first exception or process-exit notification among
    those that follow, and with nothing following it returns no event and
    leaves the core the dispatch left, resumed and waited on once more. *)
Theorem wait_debug_event_absorbs msecs de rest s :
  attached s = true →
  dwDebugEventCode de ≠ EXCEPTION_DEBUG_EVENT →
  dwDebugEventCode de ≠ EXIT_PROCESS_DEBUG_EVENT →
  ∃ s1 p closes r rest' s' added,
    dispatch_debug_event os de (logged (CallWaitForDebugEvent (wait_timeout msecs)) s)
      = Some (false, s1) ∧
    process_ s1 = Some p ∧
    lastEvent_ p = Some de ∧
    active_thread_ s1 = dwThreadId de ∧
    os_calls s1 = os_calls s ++ CallWaitForDebugEvent (wait_timeout msecs) :: closes ∧
    Forall is_close closes ∧
    wait_debug_event os msecs (de :: rest) s = Some (r, rest', s') ∧
    wait_debug_event os msecs rest (logged (CallResume p DEBUG_EXCEPTION_NOT_HANDLED) s1)
      = Some (r, rest', s') ∧
    os_calls s' =
      os_calls s ++
      CallWaitForDebugEvent (wait_timeout msecs) ::
      closes ++ CallResume p DEBUG_EXCEPTION_NOT_HANDLED :: added ∧
    loop_trace (wait_timeout msecs) added ∧
    match r with
    | Some e =>
        ∃ before, rest = before ++ event e :: rest' ∧
                  Forall (λ de', propagates de' = false) before ∧
                  propagates (event e) = true
    | None => rest' = [] ∧ Forall (λ de', propagates de' = false) rest
    end ∧
    (rest = [] →
     r = None ∧
     s' = logged (CallWaitForDebugEvent (wait_timeout msecs))
            (logged (CallResume p DEBUG_EXCEPTION_NOT_HANDLED) s1)).
Proof.
  intros Ha Hexc Hexit.
  assert (Hprop : propagates de = false) by (apply propagates_false; auto).
  destruct (dispatch_absorbs de (logged (CallWaitForDebugEvent (wait_timeout msecs)) s) Ha Hprop)
    as (s1 & p & closes & Hd & Hp & Hlast & Hact & Hcalls & Hcl).
  destruct (wait_debug_event_after_absorbed msecs de rest s s1 p Ha Hd Hp)
    as (r & rest' & s' & added & Hrun & Hrun' & Hlog & Htrace & Hr & Hnil).
  exists s1, p, closes, r, rest', s', added.
  cbn [logged os_calls] in Hcalls. rewrite <- app_assoc in Hcalls. cbn [app] in Hcalls.
  split; [exact Hd|]. split; [exact Hp|]. split; [exact Hlast|]. split; [exact Hact|].
  split; [exact Hcalls|]. split; [exact Hcl|]. split; [exact Hrun|]. split; [exact Hrun'|].
  split; [|auto].
  rewrite Hlog, Hcalls. rewrite <- app_assoc. reflexivity.
Qed.

(** C3: on a process-created notification the dispatch closes the file
    handle of the notification, makes a process object on the reported
    process handle the target, and enters a thread object built from the
    same creation record under the reporting thread identifier, leaving
    every other entry of the registry as it was; nothing is handed to the
    caller: with no further notification the call returns no event after
    resuming with [DEBUG_EXCEPTION_NOT_HANDLED] and waiting once more, and
    with further notifications it goes on with them.  Right after the
    dispatch the registry holds exactly one entry whose key is the
    reporting thread identifier, the initial thread; entries under other
    keys, if any were there, are still there, so the registry as a whole
    has size one when it was empty before. *)
Theorem create_process_seeds_registry msecs de rest s :
  attached s = true →
  dwDebugEventCode de = CREATE_PROCESS_DEBUG_EVENT →
  let target := stamp de (PlatformProcess_of_handle os (cp_hProcess (CreateProcessInfo (u de)))) in
  let s1 :=
    mkCore (Some target)
           (<[dwThreadId de := initial_thread de]> (threads_ s))
           (dwThreadId de)
           (os_calls s ++ [CallWaitForDebugEvent (wait_timeout msecs);
                           CallCloseHandle (cp_hFile (CreateProcessInfo (u de)))]) in
  dispatch_debug_event os de (logged (CallWaitForDebugEvent (wait_timeout msecs)) s)
    = Some (false, s1) ∧
  wait_debug_event os msecs [de] s =
    Some (None, [],
          logged (CallWaitForDebugEvent (wait_timeout msecs))
            (logged (CallResume target DEBUG_EXCEPTION_NOT_HANDLED) s1)) ∧
  (∃ r rest' s' added,
     wait_debug_event os msecs (de :: rest) s = Some (r, rest', s') ∧
     wait_debug_event os msecs rest (logged (CallResume target DEBUG_EXCEPTION_NOT_HANDLED) s1)
       = Some (r, rest', s') ∧
     os_calls s' =
       os_calls s ++
       [CallWaitForDebugEvent (wait_timeout msecs);
        CallCloseHandle (cp_hFile (CreateProcessInfo (u de)));
        CallResume target DEBUG_EXCEPTION_NOT_HANDLED] ++ added ∧
     loop_trace (wait_timeout msecs) added ∧
     match r with
     | Some e =>
         ∃ before, rest = before ++ event e :: rest' ∧
                   Forall (λ de', propagates de' = false) before ∧
                   propagates (event e) = true
     | None => rest' = [] ∧ Forall (λ de', propagates de' = false) rest
     end) ∧
  hProcess_ target = cp_hProcess (CreateProcessInfo (u de)) ∧
  threads_ s1 !! dwThreadId de = Some (initial_thread de) ∧
  length (filter (λ kv, kv.1 = dwThreadId de) (map_to_list (threads_ s1))) = 1%nat ∧
  (∀ t, t ≠ dwThreadId de → threads_ s1 !! t = threads_ s !! t) ∧
  (threads_ s = ∅ →
   threads_ s1 = {[dwThreadId de := initial_thread de]} ∧ size (threads_ s1) = 1%nat).
Proof.
  intros Ha Hcode target s1.
  assert (Hd : dispatch_debug_event os de (logged (CallWaitForDebugEvent (wait_timeout msecs)) s)
               = Some (false, s1)).
  { rewrite (dispatch_create_process os de _ Hcode). unfold s1, target. cbn.
    rewrite <- app_assoc. reflexivity. }
  assert (Hlook : threads_ s1 !! dwThreadId de = Some (initial_thread de))
    by apply lookup_insert_eq.
  split; [exact Hd|]. split; [|split; [|split; [|split; [|split; [|split]]]]].
  - destruct (wait_debug_event_after_absorbed msecs de [] s s1 target Ha Hd eq_refl)
      as (r & rest' & s' & added & Hrun & _ & _ & _ & Hr & Hnil).
    destruct (Hnil eq_refl) as [-> ->]. destruct Hr as [-> _]. exact Hrun.
  - destruct (wait_debug_event_after_absorbed msecs de rest s s1 target Ha Hd eq_refl)
      as (r & rest' & s' & added & Hrun & Hrun' & Hlog & Htrace & Hr & _).
    exists r, rest', s', added. split; [exact Hrun|]. split; [exact Hrun'|].
    split; [|auto]. rewrite Hlog. unfold s1. cbn [os_calls]. rewrite <- app_assoc. reflexivity.
  - reflexivity.
  - exact Hlook.
  - apply (one_entry_per_key _ (initial_thread de)).
    + apply NoDup_fst_map_to_list.
    + apply elem_of_map_to_list. exact Hlook.
  - intros t Hne. unfold s1. cbn [threads_]. apply lookup_insert_ne. congruence.
  - intros Hempty. unfold s1. cbn. rewrite Hempty, insert_empty.
    split; [reflexivity|apply map_size_singleton].
Qed.

(** X7: a thread-created notification is absorbed and enters, under the
    reporting thread identifier, a thread object built from its creation
    record; the thread-exited notification of the same thread is absorbed
    too and takes that entry out again.  When the two are all that
    arrives, the call returns no event and leaves the registry without
    that identifier; when the identifier was not in the registry before,
    the registry is back to what it was. *)
Theorem thread_create_exit_round_trip msecs c e rest s p :
  process_ s = Some p →
  dwDebugEventCode c = CREATE_THREAD_DEBUG_EVENT →
  dwDebugEventCode e = EXIT_THREAD_DEBUG_EVENT →
  dwThreadId e = dwThreadId c →
  let t := wait_timeout msecs in
  let s1 :=
    mkCore (Some (stamp c p))
           (<[dwThreadId c := mkThread (CreateThread (u c))]> (threads_ s))
           (dwThreadId c)
           (os_calls s ++ [CallWaitForDebugEvent t]) in
  let s2 :=
    mkCore (Some (stamp e (stamp c p)))
           (delete (dwThreadId c) (threads_ s))
           (dwThreadId c)
           (os_calls s ++ [CallWaitForDebugEvent t;
                           CallResume (stamp c p) DEBUG_EXCEPTION_NOT_HANDLED;
                           CallWaitForDebugEvent t]) in
  dispatch_debug_event os c (logged (CallWaitForDebugEvent t) s) = Some (false, s1) ∧
  threads_ s1 !! dwThreadId c = Some (mkThread (CreateThread (u c))) ∧
  dispatch_debug_event os e
    (logged (CallWaitForDebugEvent t)
       (logged (CallResume (stamp c p) DEBUG_EXCEPTION_NOT_HANDLED) s1)) = Some (false, s2) ∧
  wait_debug_event os msecs [c; e] s =
    Some (None, [],
          logged (CallWaitForDebugEvent t)
            (logged (CallResume (stamp e (stamp c p)) DEBUG_EXCEPTION_NOT_HANDLED) s2)) ∧
  wait_debug_event os msecs (c :: e :: rest) s =
    wait_debug_event os msecs rest
      (logged (CallResume (stamp e (stamp c p)) DEBUG_EXCEPTION_NOT_HANDLED) s2) ∧
  threads_ s2 !! dwThreadId c = None ∧
  (threads_ s !! dwThreadId c = None → threads_ s2 = threads_ s).
Proof.
  intros Hp Hc He Htid t s1 s2.
  assert (Ha : attached s = true) by (apply attached_Some; eauto).
  assert (Hd1 : dispatch_debug_event os c (logged (CallWaitForDebugEvent t) s)
                = Some (false, s1)).
  { rewrite (dispatch_create_thread os c _ Hc). cbn [process_ logged]. rewrite Hp. reflexivity. }
  assert (Hd2 : dispatch_debug_event os e
                  (logged (CallWaitForDebugEvent t)
                     (logged (CallResume (stamp c p) DEBUG_EXCEPTION_NOT_HANDLED) s1))
                = Some (false, s2)).
  { rewrite (dispatch_exit_thread os e _ He). unfold s1, s2, logged. cbn. rewrite Htid.
    rewrite delete_insert_eq, <- !app_assoc. reflexivity. }
  assert (Hstep : ∀ evs,
    wait_debug_event os msecs (c :: e :: evs) s =
    wait_debug_event os msecs evs
      (logged (CallResume (stamp e (stamp c p)) DEBUG_EXCEPTION_NOT_HANDLED) s2)).
  { intros evs. rewrite (wait_debug_event_cons os msecs c (e :: evs) s Ha).
    fold t. rewrite Hd1. cbn [process_ s1].
    rewrite wait_debug_event_cons by reflexivity.
    fold t. rewrite Hd2. reflexivity. }
  split; [exact Hd1|]. split; [apply lookup_insert_eq|]. split; [exact Hd2|].
  split; [rewrite Hstep; reflexivity|]. split; [apply Hstep|].
  split; [apply lookup_delete_eq|]. intros Hfresh. now apply delete_id.
Qed.

(** X8: the timeout handed to [WaitForDebugEvent], for a 32-bit [msecs]:
    it is never zero, so the loop never polls; it is [INFINITE] exactly for
    [0] and [-1]; a positive [msecs] is handed on as it is. *)
Theorem wait_timeout_range (msecs : Z) :
  - 2 ^ 31 ≤ msecs < 2 ^ 31 →
  0 < wait_timeout msecs < 2 ^ 32 ∧
  (wait_timeout msecs = INFINITE ↔ msecs = 0 ∨ msecs = -1) ∧
  (0 < msecs → wait_timeout msecs = msecs).
Proof.
  intros Hrange. unfold wait_timeout, to_DWORD, INFINITE.
  destruct (Z.eqb_spec msecs 0) as [->|Hne].
  - split; [lia|]. split; [|lia]. split; auto.
  - assert (Hcases : msecs < 0 ∧ msecs mod 2 ^ 32 = msecs + 2 ^ 32 ∨
                     0 < msecs ∧ msecs mod 2 ^ 32 = msecs).
    { destruct (Z_lt_le_dec msecs 0) as [Hneg|Hpos].
      - left. split; [exact Hneg|].
        symmetry. apply (Z.mod_unique msecs (2 ^ 32) (-1) (msecs + 2 ^ 32)); lia.
      - right. split; [lia|]. apply Z.mod_small. lia. }
    destruct Hcases as [[Hneg ->]|[Hpos ->]]; (split; [lia|]); split; try lia;
      split; lia.
Qed.

End WaitLoopRuns.

(** ** More on the session life cycle *)

Section LifecycleRest.

Variable os : OS.

(** X9: [kill] always returns with a core that is not attached.  With a
    target it asks the system to terminate the process through its handle,
    with exit code [-1] as an unsigned value, and then runs the whole of
    [detach] whatever the termination answered: breakpoints cleared, the
    active thread continued, debugging stopped, target dropped, registry
    emptied. *)
Theorem kill_ends_detached (s : DebuggerCore) :
  ∃ s',
    kill s = Some (tt, s') ∧
    attached s' = false ∧
    ∀ p, process_ s = Some p →
         s' = mkCore None ∅ (active_thread_ s)
                (os_calls s ++
                 [CallTerminateProcess (hProcess_ p) 0xFFFFFFFF;
                  CallClearBreakpoints;
                  CallContinueDebugEvent (pid p) (active_thread_ s) DBG_CONTINUE;
                  CallDebugActiveProcessStop (pid p)]).
Proof.
  destruct s as [[p|] ths act calls].
  - eexists. split; [reflexivity|]. split; [reflexivity|].
    intros q Hq. cbn in Hq. injection Hq as <-.
    cbn. rewrite <- !app_assoc. reflexivity.
  - eexists. split; [reflexivity|]. split; [reflexivity|]. intros q Hq. discriminate Hq.
Qed.

(** X10: [attach] on a core that is attached first takes the old session
    down ([detach] in full, for the old process identifier) and only then
    asks for the new attachment; whether that is granted or not, none of
    the old threads is left in the registry, and the target is the new
    process or none. *)
Theorem attach_replaces_session (p : pid_t) (s : DebuggerCore) (old : PlatformProcess) :
  process_ s = Some old →
  ∃ st s',
    attach os p s = Some (st, s') ∧
    st = (if DebugActiveProcess os p then Ok else Error "Error DebuggerCore::attach") ∧
    process_ s' =
      (if DebugActiveProcess os p then Some (PlatformProcess_of_pid os p) else None) ∧
    threads_ s' = ∅ ∧
    active_thread_ s' = active_thread_ s ∧
    os_calls s' =
      os_calls s ++
      [CallClearBreakpoints;
       CallContinueDebugEvent (pid old) (active_thread_ s) DBG_CONTINUE;
       CallDebugActiveProcessStop (pid old);
       CallDebugActiveProcess p].
Proof.
  intros Hold.
  rewrite (attach_run os p s _ (detach_attached s old Hold)).
  destruct (DebugActiveProcess os p); eexists _, _; (split; [reflexivity|]); cbn;
    rewrite <- !app_assoc; auto 10.
Qed.

(** X11: when the system does not create the process, [open] answers with
    its own error and creates no session: the core is not attached (a
    session it had has been detached first), and the environment block it
    took is released all the same. *)
Theorem open_failure path cwd args tty (s : DebuggerCore) :
  CreateProcessW os path (command_line os path args) CREATE_FLAGS
    (if isEmpty cwd then canonicalPath os path else cwd) = None →
  ∃ s0 s',
    detach s = Some (Ok, s0) ∧
    open os path cwd args tty s = Some (Error "Error DebuggerCore::open", s') ∧
    attached s' = false ∧
    threads_ s' = threads_ s0 ∧
    active_thread_ s' = active_thread_ s0 ∧
    os_calls s' =
      os_calls s0 ++
      [CallGetEnvironmentStringsW;
       CallCreateProcessW path (command_line os path args) CREATE_FLAGS
         (if isEmpty cwd then canonicalPath os path else cwd);
       CallFreeEnvironmentStringsW].
Proof.
  intros Hcp. destruct (detach_returns s) as (s0 & Hd & Hp0 & _).
  exists s0. unfold open. cbv zeta. rewrite run_bind, Hd.
  run_M. rewrite Hcp. eexists. split; [reflexivity|]. split; [reflexivity|].
  fold (process_ s0). rewrite Hp0. cbn. rewrite <- !app_assoc. auto.
Qed.

(** X12: when the system creates the process, [open] answers [Status::Ok];
    the target is built on the process handle it was given, the active
    thread is the initial thread the system reported, the handle of that
    thread is closed, the debug privilege is taken off the new process,
    and the environment block is released.  The registry is not touched
    beyond what the leading [detach] did. *)
Theorem open_success path cwd args tty (s : DebuggerCore) process_info :
  CreateProcessW os path (command_line os path args) CREATE_FLAGS
    (if isEmpty cwd then canonicalPath os path else cwd) = Some process_info →
  ∃ s0,
    detach s = Some (Ok, s0) ∧
    open os path cwd args tty s =
    Some (Ok,
          mkCore (Some (PlatformProcess_of_handle os (pi_hProcess process_info)))
                 (threads_ s0)
                 (pi_dwThreadId process_info)
                 (os_calls s0 ++
                  [CallGetEnvironmentStringsW;
                   CallCreateProcessW path (command_line os path args) CREATE_FLAGS
                     (if isEmpty cwd then canonicalPath os path else cwd);
                   CallCloseHandle (pi_hThread process_info);
                   CallSetDebugPrivilege (pi_hProcess process_info) false;
                   CallFreeEnvironmentStringsW])).
Proof.
  intros Hcp. destruct (detach_returns s) as (s0 & Hd & Hp0 & _).
  exists s0. split; [exact Hd|]. unfold open. cbv zeta. rewrite run_bind, Hd.
  run_M. rewrite Hcp. cbn. rewrite <- !app_assoc. reflexivity.
Qed.

(** X17: the destructor never leaves a debuggee attached.  On a core with
    a target it runs the whole of [detach] (breakpoints cleared, the
    active thread continued with [DBG_CONTINUE], debugging of the process
    stopped, target dropped, registry emptied) and then takes the debug
    privilege off the debugger's own process; these four calls are all it
    makes.  On a core without a target the privilege call is the only
    call, and nothing else changes. *)
Theorem destructor_detaches (s : DebuggerCore) :
  ∃ s',
    DebuggerCore_destructor s = Some (tt, s') ∧
    attached s' = false ∧
    last (os_calls s') = Some (CallSetDebugPrivilege GetCurrentProcess false) ∧
    (attached s = true → threads_ s' = ∅) ∧
    (∀ p, process_ s = Some p →
          s' = mkCore None ∅ (active_thread_ s)
                 (os_calls s ++
                  [CallClearBreakpoints;
                   CallContinueDebugEvent (pid p) (active_thread_ s) DBG_CONTINUE;
                   CallDebugActiveProcessStop (pid p);
                   CallSetDebugPrivilege GetCurrentProcess false])) ∧
    (attached s = false → s' = logged (CallSetDebugPrivilege GetCurrentProcess false) s).
Proof.
  unfold DebuggerCore_destructor. rewrite run_bind.
  destruct (process_ s) as [p|] eqn:Hp.
  - rewrite (detach_attached s p Hp). eexists. split; [reflexivity|].
    split; [reflexivity|]. split; [apply last_snoc|].
    unfold attached. rewrite Hp. split; [reflexivity|]. split; [|discriminate].
    intros q [= <-]. unfold logged. cbn. rewrite <- !app_assoc. reflexivity.
  - rewrite (detach_detached s Hp). eexists. split; [reflexivity|].
    unfold attached. cbn. rewrite Hp. split; [reflexivity|]. split; [apply last_snoc|].
    split; [discriminate|]. split; [discriminate|reflexivity].
Qed.

End LifecycleRest.

(** ** Enumeration and privileges *)

Section EnumerateRest.

Variable os : OS.

Lemma enumerate_entries_lookup entries :
  ∀ ret p,
    enumerate_entries os entries ret !! p =
    if decide (p ∈ th32ProcessID <$> entries ∧ OpenProcess os p ≠ 0)
    then Some (PlatformProcess_of_pid os p)
    else ret !! p.
Proof.
  induction entries as [|lppe entries IH]; intros ret p.
  - cbn. case_decide as H; [|reflexivity]. destruct H as [H _]. inversion H.
  - cbn [enumerate_entries fmap list_fmap]. cbn [PlatformProcess_of_pid hProcess_ pid].
    destruct (Z.eqb_spec (OpenProcess os (th32ProcessID lppe)) 0) as [Hnull|Hopen];
      rewrite IH; clear IH.
    + apply decide_ext. split; intros [Hin Hp]; (split; [|exact Hp]).
      * now right.
      * apply elem_of_cons in Hin as [->|Hin]; [contradiction|exact Hin].
    + destruct (decide (p = th32ProcessID lppe)) as [->|Hne].
      * rewrite (decide_True (P := _ ∈ _ :: _ ∧ _)) by (split; [now left|exact Hopen]).
        case_decide; [reflexivity|apply lookup_insert_eq].
      * rewrite lookup_insert_ne by congruence.
        apply decide_ext. split; intros [Hin Hp]; (split; [|exact Hp]).
        -- now right.
        -- apply elem_of_cons in Hin as [->|Hin]; [contradiction|exact Hin].
Qed.

(** X14: [enumerate_processes] lists exactly the processes of the snapshot
    that could be opened: an entry found under a process identifier is the
    process object of that identifier, with a handle that is not null, and
    the identifier is in the snapshot; a process of the snapshot that can
    be opened is listed; one that cannot be opened is passed over without
    any error; without a snapshot the directory is empty. *)
Theorem enumerate_processes_lookup (p : pid_t) :
  (∀ pi, enumerate_processes os !! p = Some pi →
         pi = PlatformProcess_of_pid os p ∧ pid pi = p ∧ hProcess_ pi ≠ 0 ∧
         ∃ entries, CreateToolhelp32Snapshot os TH32CS_SNAPPROCESS 0 = Some entries ∧
                    p ∈ th32ProcessID <$> entries) ∧
  (∀ entries, CreateToolhelp32Snapshot os TH32CS_SNAPPROCESS 0 = Some entries →
              p ∈ th32ProcessID <$> entries →
              OpenProcess os p ≠ 0 →
              enumerate_processes os !! p = Some (PlatformProcess_of_pid os p)) ∧
  (OpenProcess os p = 0 → enumerate_processes os !! p = None) ∧
  (CreateToolhelp32Snapshot os TH32CS_SNAPPROCESS 0 = None → enumerate_processes os = ∅).
Proof.
  unfold enumerate_processes. cbv zeta.
  destruct (CreateToolhelp32Snapshot os TH32CS_SNAPPROCESS 0) as [entries|].
  - rewrite enumerate_entries_lookup. split; [|split; [|split]].
    + intros pi Hpi. case_decide as H; [|rewrite lookup_empty in Hpi; discriminate].
      injection Hpi as <-. destruct H as [Hin Hopen]. cbn. eauto 10.
    + intros entries' [= <-] Hin Hopen. rewrite decide_True; auto.
    + intros Hnull. rewrite decide_False; [apply lookup_empty|]. intros [_ H]. contradiction.
    + discriminate.
  - split; [|split; [|split]].
    + intros pi Hpi. rewrite lookup_empty in Hpi. discriminate.
    + discriminate.
    + intros _. apply lookup_empty.
    + reflexivity.
Qed.

Lemma scan_snapshot_found (p parent : pid_t) entries :
  scan_snapshot p parent entries = parent ∨
  ∃ pe, pe ∈ entries ∧ th32ProcessID pe = p ∧
        scan_snapshot p parent entries = th32ParentProcessID pe.
Proof.
  induction entries as [|pe entries IH]; [now left|].
  cbn. destruct (Z.eqb_spec p (th32ProcessID pe)) as [->|Hne].
  - right. exists pe. split; [now left|]. auto.
  - destruct IH as [IH|(pe' & Hin & Hpe & IH)]; [now left|].
    right. exists pe'. split; [now right|]. auto.
Qed.

(** X15: [parent_pid] answers either the value [1] it starts from or the
    parent recorded in an entry of the snapshot that carries the process
    identifier asked for, never anything else; when no snapshot can be
    taken, or the snapshot is empty, the answer is [1]. *)
Theorem parent_pid_sentinel_or_recorded (p : pid_t) :
  (parent_pid os p = 1 ∨
   ∃ entries pe,
     CreateToolhelp32Snapshot os TH32CS_SNAPPROCESS p = Some entries ∧
     pe ∈ entries ∧ th32ProcessID pe = p ∧
     parent_pid os p = th32ParentProcessID pe) ∧
  (CreateToolhelp32Snapshot os TH32CS_SNAPPROCESS p = None → parent_pid os p = 1) ∧
  (CreateToolhelp32Snapshot os TH32CS_SNAPPROCESS p = Some [] → parent_pid os p = 1).
Proof.
  unfold parent_pid. cbv zeta.
  destruct (CreateToolhelp32Snapshot os TH32CS_SNAPPROCESS p) as [entries|].
  - split; [|split; [discriminate|intros [= ->]; reflexivity]].
    destruct (scan_snapshot_found p 1 entries) as [H|(pe & Hin & Hpe & H)]; [now left|].
    right. exists entries, pe. auto.
  - split; [now left|]. split; [reflexivity|discriminate].
Qed.

End EnumerateRest.

(** X16: [set_debug_privilege] releases the token on every path that
    opened it and never otherwise: when the token cannot be opened the one
    call is the attempt and the answer is [false]; when it can, the last
    call closes that token and no earlier call closes anything.  The
    answer is [true] exactly when the privilege is known and the
    adjustment, asking for [SE_PRIVILEGE_ENABLED] when [set] and for no
    attribute otherwise, went through; privileges are adjusted only after
    the lookup answered. *)
Theorem set_debug_privilege_token_discipline tos process set :
  match OpenProcessToken tos process TOKEN_ADJUST_PRIVILEGES with
  | None =>
      set_debug_privilege tos process set =
      (false, [CallOpenProcessToken process TOKEN_ADJUST_PRIVILEGES])
  | Some token =>
      (∃ front,
         (set_debug_privilege tos process set).2 = front ++ [CallCloseTokenHandle token] ∧
         Forall (λ c, ∀ h, c ≠ CallCloseTokenHandle h) front ∧
         (∀ tok dis tp, CallAdjustTokenPrivileges tok dis tp ∈ front →
                        is_Some (LookupPrivilegeValue tos SE_DEBUG_NAME))) ∧
      ((set_debug_privilege tos process set).1 = true ↔
       ∃ luid,
         LookupPrivilegeValue tos SE_DEBUG_NAME = Some luid ∧
         AdjustTokenPrivileges tos token false
           (mkTokenPrivileges 1 luid (if set then SE_PRIVILEGE_ENABLED else 0)) = true)
  end.
Proof.
  unfold set_debug_privilege. cbv zeta.
  destruct (OpenProcessToken tos process TOKEN_ADJUST_PRIVILEGES) as [token|]; [|reflexivity].
  destruct (LookupPrivilegeValue tos SE_DEBUG_NAME) as [luid|]; cbn.
  - split.
    + eexists [_; _; _]. split; [reflexivity|]. split.
      * repeat constructor; intros h; discriminate.
      * intros tok dis tp _. eauto.
    + split.
      * intros H. exists luid. auto.
      * intros (luid' & [= <-] & H). exact H.
  - split.
    + eexists [_; _]. split; [reflexivity|]. split.
      * repeat constructor; intros h; discriminate.
      * intros tok dis tp Hin.
        apply elem_of_cons in Hin as [Hin|Hin]; [discriminate|].
        apply elem_of_cons in Hin as [Hin|Hin]; [discriminate|]. inversion Hin.
    + split; [discriminate|]. intros (luid' & H & _). discriminate.
Qed.

(** ** The small system at work *)

Module Scenario.

Import Fixture.

Example open_fresh :
  open example_os "C:/dir/a.exe" "" [] "" fresh = Some (Ok, opened).
Proof. reflexivity. Qed.

Example session_end_reached :
  wait_debug_event example_os 0
    [notification CREATE_PROCESS_DEBUG_EVENT 7; notification EXIT_PROCESS_DEBUG_EVENT 7]
    opened
  = Some (Some (mkEvent (notification EXIT_PROCESS_DEBUG_EVENT 7)), [], session_end).
Proof. reflexivity. Qed.

(** The end-to-end run: [open], the process-created notification is
    absorbed and leaves one thread, a thread exit for an unknown thread
    changes nothing, the process exit is handed out and the core is no
    longer attached. *)
Example end_to_end :
  ∃ s1 s2,
    wait_debug_event example_os 0 [notification CREATE_PROCESS_DEBUG_EVENT 7] opened
      = Some (None, [], s1) ∧
    size (threads_ s1) = 1%nat ∧ attached s1 = true ∧
    wait_debug_event example_os 0
      [notification EXIT_THREAD_DEBUG_EVENT 9; notification EXIT_PROCESS_DEBUG_EVENT 7] s1
      = Some (Some (mkEvent (notification EXIT_PROCESS_DEBUG_EVENT 7)), [], s2) ∧
    size (threads_ s2) = 1%nat ∧ attached s2 = false.
Proof. eexists _, _. repeat split; reflexivity. Qed.

Lemma wait_debug_event_absorbs_witness :
  attached running = true ∧
  dwDebugEventCode (notification LOAD_DLL_DEBUG_EVENT 7) ≠ EXCEPTION_DEBUG_EVENT ∧
  dwDebugEventCode (notification LOAD_DLL_DEBUG_EVENT 7) ≠ EXIT_PROCESS_DEBUG_EVENT ∧
  ∃ s1 p closes r rest' s' added,
    dispatch_debug_event example_os (notification LOAD_DLL_DEBUG_EVENT 7)
      (logged (CallWaitForDebugEvent (wait_timeout 0)) running) = Some (false, s1) ∧
    process_ s1 = Some p ∧
    wait_debug_event example_os 0
      [notification LOAD_DLL_DEBUG_EVENT 7; notification EXCEPTION_DEBUG_EVENT 7] running
      = Some (r, rest', s') ∧
    os_calls s' =
      os_calls running ++
      CallWaitForDebugEvent (wait_timeout 0) ::
      closes ++ CallResume p DEBUG_EXCEPTION_NOT_HANDLED :: added ∧
    loop_trace (wait_timeout 0) added.
Proof.
  assert (H1 : attached running = true) by reflexivity.
  assert (H2 : dwDebugEventCode (notification LOAD_DLL_DEBUG_EVENT 7) ≠ EXCEPTION_DEBUG_EVENT)
    by (vm_compute; discriminate).
  assert (H3 : dwDebugEventCode (notification LOAD_DLL_DEBUG_EVENT 7) ≠ EXIT_PROCESS_DEBUG_EVENT)
    by (vm_compute; discriminate).
  split; [exact H1|]. split; [exact H2|]. split; [exact H3|].
  destruct (wait_debug_event_absorbs example_os 0 (notification LOAD_DLL_DEBUG_EVENT 7)
              [notification EXCEPTION_DEBUG_EVENT 7] running H1 H2 H3)
    as (s1 & p & closes & r & rest' & s' & added &
        Hd & Hp & _ & _ & _ & _ & Hrun & _ & Hlog & Htrace & _).
  exists s1, p, closes, r, rest', s', added.
  split; [exact Hd|]. split; [exact Hp|]. split; [exact Hrun|]. split; assumption.
Defined.

Lemma create_process_seeds_registry_witness :
  attached opened = true ∧
  dwDebugEventCode (notification CREATE_PROCESS_DEBUG_EVENT 7) = CREATE_PROCESS_DEBUG_EVENT ∧
  ∃ s',
    wait_debug_event example_os 0 [notification CREATE_PROCESS_DEBUG_EVENT 7] opened =
      Some (None, [], s') ∧
    threads_ s' = {[7 := initial_thread (notification CREATE_PROCESS_DEBUG_EVENT 7)]} ∧
    size (threads_ s') = 1%nat.
Proof.
  split; [reflexivity|]. split; [reflexivity|].
  pose proof (create_process_seeds_registry example_os 0
                (notification CREATE_PROCESS_DEBUG_EVENT 7) [] opened eq_refl eq_refl) as H.
  cbv zeta in H. destruct H as (_ & Hrun & _ & _ & _ & _ & _ & Hone).
  eexists. split; [exact Hrun|]. exact (Hone eq_refl).
Defined.

Lemma exit_process_propagates_witness :
  process_ running = Some (mkProcess 200 1200 None) ∧
  dwDebugEventCode (notification EXIT_PROCESS_DEBUG_EVENT 7) = EXIT_PROCESS_DEBUG_EVENT ∧
  ∃ s',
    wait_debug_event example_os 0
      [notification EXIT_PROCESS_DEBUG_EVENT 7; notification RIP_EVENT 7] running =
    Some (Some (mkEvent (notification EXIT_PROCESS_DEBUG_EVENT 7)),
          [notification RIP_EVENT 7], s') ∧
    os_calls s' =
      [CallWaitForDebugEvent INFINITE; CallResume (mkProcess 200 1200 None) DEBUG_CONTINUE] ∧
    attached s' = false.
Proof.
  split; [reflexivity|]. split; [reflexivity|].
  destruct (exit_process_propagates example_os 0 (notification EXIT_PROCESS_DEBUG_EVENT 7)
              [notification RIP_EVENT 7] running (mkProcess 200 1200 None) eq_refl eq_refl)
    as (s' & Hrun & Hcalls & _ & Hatt & _).
  exists s'. split; [exact Hrun|]. split; [exact Hcalls|exact Hatt].
Defined.

Lemma attach_outcome_witness :
  (∃ s', attach example_os 300 running = Some (Error "Error DebuggerCore::attach", s') ∧
         attached s' = false ∧ threads_ s' ⊆ threads_ running) ∧
  (∃ s' target, attach example_os 200 fresh = Some (Ok, s') ∧
                attached s' = true ∧ process_ s' = Some target ∧ pid target = 200).
Proof.
  split.
  - destruct (proj1 (attach_outcome example_os 300 running) eq_refl)
      as (s' & Hrun & Hatt & Hsub & _).
    exists s'. split; [exact Hrun|]. split; [exact Hatt|exact Hsub].
  - destruct (proj2 (attach_outcome example_os 200 fresh) eq_refl)
      as (s' & target & Hrun & Hatt & Hp & Hpid & _).
    exists s', target. split; [exact Hrun|]. split; [exact Hatt|]. split; [exact Hp|exact Hpid].
Defined.

(** The claim C5 as stated fails on the core a finished session leaves
    behind: the process-exit notification dropped the target but not the
    last thread, [detach] finds no target and does nothing, and the
    registry still holds that thread after it. *)
Lemma detach_keeps_last_thread :
  attached session_end = false ∧
  detach session_end = Some (Ok, session_end) ∧
  threads_ session_end = {[7 := initial_thread (notification CREATE_PROCESS_DEBUG_EVENT 7)]} ∧
  threads_ session_end ≠ ∅.
Proof.
  split; [reflexivity|]. split; [reflexivity|]. split; [reflexivity|].
  intros Hempty. apply (f_equal (λ m, m !! 7)) in Hempty. discriminate Hempty.
Qed.

Lemma detach_twice_witness :
  ∃ s1, detach running = Some (Ok, s1) ∧ detach s1 = Some (Ok, s1) ∧ threads_ s1 = ∅.
Proof.
  destruct (detach_twice running) as (s1 & H1 & H2 & _ & _ & Hempty).
  exists s1. split; [exact H1|]. split; [exact H2|]. apply Hempty. left. reflexivity.
Defined.

(** C6 at [open("C:/dir/a.exe", "", ["-v", "in.txt"])]: the working
    directory handed to [CreateProcessW] is the directory of the
    executable, and the first token of the command line is that same
    directory between quotes, where the comment in the code announces the
    full path of the executable. *)
Theorem open_first_token_is_directory :
  open example_os "C:/dir/a.exe" "" ["-v"; "in.txt"] "" fresh =
    Some (Ok,
          mkCore (Some (mkProcess 200 1200 None)) ∅ 7
            [CallGetEnvironmentStringsW;
             CallCreateProcessW "C:/dir/a.exe"
               (dquote +:+ "C:/dir" +:+ dquote +:+ " -v in.txt") CREATE_FLAGS "C:/dir";
             CallCloseHandle 1207;
             CallSetDebugPrivilege 1200 false;
             CallFreeEnvironmentStringsW]) ∧
  dquote +:+ "C:/dir" +:+ dquote +:+ " -v in.txt" ≠
  dquote +:+ "C:/dir/a.exe" +:+ dquote +:+ " -v in.txt".
Proof.
  split; [reflexivity|]. vm_compute. discriminate.
Qed.

(** The claim C7 as stated fails on a process-exit notification: the
    active thread is the reporting thread, but no target is left that
    could carry the notification. *)
Lemma exit_process_not_stamped :
  ∃ s',
    wait_debug_event example_os 0 [notification EXIT_PROCESS_DEBUG_EVENT 7] running =
    Some (Some (mkEvent (notification EXIT_PROCESS_DEBUG_EVENT 7)), [], s') ∧
    active_thread_ s' = 7 ∧
    ¬ ∃ p, process_ s' = Some p ∧
           lastEvent_ p = Some (notification EXIT_PROCESS_DEBUG_EVENT 7).
Proof.
  eexists. split; [reflexivity|]. split; [reflexivity|].
  intros (p & Hp & _). discriminate Hp.
Qed.

Lemma notification_recorded_witness :
  attached running = true ∧
  ∃ s1 p,
    dispatch_debug_event example_os (notification EXCEPTION_DEBUG_EVENT 8)
      (logged (CallWaitForDebugEvent (wait_timeout 0)) running) = Some (true, s1) ∧
    active_thread_ s1 = 8 ∧
    process_ s1 = Some p ∧
    lastEvent_ p = Some (notification EXCEPTION_DEBUG_EVENT 8).
Proof.
  split; [reflexivity|].
  destruct (notification_recorded example_os 0 (notification EXCEPTION_DEBUG_EVENT 8) []
              running eq_refl)
    as (propagate & s1 & Hd & _ & Hact & Hstamp & _).
  destruct Hstamp as (p & Hp & Hlast); [vm_compute; discriminate|].
  assert (Hprop : propagate = true).
  { vm_compute in Hd. congruence. }
  subst propagate. exists s1, p. repeat split; assumption.
Defined.

Lemma parent_pid_snapshot_witness :
  CreateToolhelp32Snapshot example_os TH32CS_SNAPPROCESS 200 =
    Some [mkProcessEntry 4 0; mkProcessEntry 100 4; mkProcessEntry 200 100] ∧
  CreateToolhelp32Snapshot example_os TH32CS_SNAPPROCESS 9999 =
    Some [mkProcessEntry 4 0; mkProcessEntry 100 4; mkProcessEntry 200 100] ∧
  parent_pid example_os 200 = 100 ∧
  parent_pid example_os 9999 = 1.
Proof.
  split; [reflexivity|]. split; [reflexivity|]. split.
  - apply (proj1 (parent_pid_snapshot example_os 200 _ eq_refl)
             [mkProcessEntry 4 0; mkProcessEntry 100 4] (mkProcessEntry 200 100) []).
    + reflexivity.
    + cbn. intros Hin. apply elem_of_cons in Hin as [Hin|Hin]; [discriminate|].
      apply elem_of_cons in Hin as [Hin|Hin]; [discriminate|]. inversion Hin.
    + reflexivity.
  - apply (proj2 (proj2 (parent_pid_snapshot example_os 9999 _ eq_refl))).
    cbn. intros Hin. apply elem_of_cons in Hin as [Hin|Hin]; [discriminate|].
    apply elem_of_cons in Hin as [Hin|Hin]; [discriminate|].
    apply elem_of_cons in Hin as [Hin|Hin]; [discriminate|]. inversion Hin.
Defined.

Lemma exit_thread_unknown_witness :
  attached running = true ∧
  dwDebugEventCode (notification EXIT_THREAD_DEBUG_EVENT 9) = EXIT_THREAD_DEBUG_EVENT ∧
  (dwThreadId (notification EXIT_THREAD_DEBUG_EVENT 9) ∉ dom (threads_ running)) ∧
  threads_ running !! 9 = None ∧
  ∃ s2,
    wait_debug_event example_os 0 [notification EXIT_THREAD_DEBUG_EVENT 9] running =
      Some (None, [], s2) ∧
    threads_ s2 = threads_ running.
Proof.
  assert (Hdom : dwThreadId (notification EXIT_THREAD_DEBUG_EVENT 9) ∉ dom (threads_ running)).
  { apply not_elem_of_dom. reflexivity. }
  split; [reflexivity|]. split; [reflexivity|]. split; [exact Hdom|].
  destruct (exit_thread_unknown example_os 0 (notification EXIT_THREAD_DEBUG_EVENT 9) []
              running eq_refl eq_refl Hdom)
    as (Hnone & s1 & _ & _ & _ & s2 & Hrun & Hths).
  split; [exact Hnone|]. exists s2. split; assumption.
Defined.

Lemma kill_detached_witness :
  attached fresh = false ∧ kill fresh = Some (tt, fresh).
Proof.
  split; [reflexivity|]. apply kill_detached. reflexivity.
Defined.

Lemma wait_debug_event_first_propagating_witness :
  attached running = true ∧
  ∃ r rest' s',
    wait_debug_event example_os 0 arrivals running = Some (r, rest', s') ∧
    match r with
    | Some e =>
        ∃ before, arrivals = before ++ event e :: rest' ∧
                  Forall (λ de, propagates de = false) before ∧
                  propagates (event e) = true
    | None => rest' = [] ∧ Forall (λ de, propagates de = false) arrivals
    end.
Proof.
  split; [reflexivity|].
  apply (wait_debug_event_first_propagating example_os 0 arrivals running). reflexivity.
Defined.

Lemma wait_debug_event_registry_keys_witness :
  attached running = true ∧
  ∃ r rest' s' consumed,
    wait_debug_event example_os 0 arrivals running = Some (r, rest', s') ∧
    arrivals = consumed ++ rest' ∧
    dom (threads_ s') = live_threads (dom (threads_ running)) consumed.
Proof.
  split; [reflexivity|].
  apply (wait_debug_event_registry_keys example_os 0 arrivals running). reflexivity.
Defined.

Lemma wait_debug_event_call_protocol_witness :
  attached running = true ∧
  ∃ r rest' s' added,
    wait_debug_event example_os 0 arrivals running = Some (r, rest', s') ∧
    os_calls s' = os_calls running ++ added ∧
    loop_trace (wait_timeout 0) added.
Proof.
  split; [reflexivity|].
  apply (wait_debug_event_call_protocol example_os 0 arrivals running). reflexivity.
Defined.

Lemma wait_debug_event_leaves_context_witness :
  attached running = true ∧
  ∃ r rest' s',
    wait_debug_event example_os 0 arrivals running = Some (r, rest', s') ∧
    match r with
    | Some e =>
        active_thread_ s' = dwThreadId (event e) ∧
        if dwDebugEventCode (event e) =? EXIT_PROCESS_DEBUG_EVENT
        then process_ s' = None
        else ∃ p, process_ s' = Some p ∧ lastEvent_ p = Some (event e)
    | None =>
        attached s' = true ∧
        ∀ de, last arrivals = Some de →
              active_thread_ s' = dwThreadId de ∧
              ∃ p, process_ s' = Some p ∧ lastEvent_ p = Some de
    end.
Proof.
  split; [reflexivity|].
  apply (wait_debug_event_leaves_context example_os 0 arrivals running). reflexivity.
Defined.

Lemma exception_propagates_witness :
  process_ running = Some (mkProcess 200 1200 None) ∧
  dwDebugEventCode (notification EXCEPTION_DEBUG_EVENT 8) = EXCEPTION_DEBUG_EVENT ∧
  wait_debug_event example_os 0
    [notification EXCEPTION_DEBUG_EVENT 8; notification RIP_EVENT 7] running =
  Some (Some (mkEvent (notification EXCEPTION_DEBUG_EVENT 8)),
        [notification RIP_EVENT 7],
        mkCore (Some (stamp (notification EXCEPTION_DEBUG_EVENT 8) (mkProcess 200 1200 None)))
               (threads_ running) 8
               (os_calls running ++ [CallWaitForDebugEvent (wait_timeout 0)])).
Proof.
  split; [reflexivity|]. split; [reflexivity|].
  apply (exception_propagates example_os 0 (notification EXCEPTION_DEBUG_EVENT 8)
           [notification RIP_EVENT 7] running (mkProcess 200 1200 None)); reflexivity.
Defined.

Lemma thread_create_exit_round_trip_witness :
  process_ running = Some (mkProcess 200 1200 None) ∧
  dwDebugEventCode (notification CREATE_THREAD_DEBUG_EVENT 8) = CREATE_THREAD_DEBUG_EVENT ∧
  dwDebugEventCode (notification EXIT_THREAD_DEBUG_EVENT 8) = EXIT_THREAD_DEBUG_EVENT ∧
  dwThreadId (notification EXIT_THREAD_DEBUG_EVENT 8) =
    dwThreadId (notification CREATE_THREAD_DEBUG_EVENT 8) ∧
  ∃ s1 s',
    dispatch_debug_event example_os (notification CREATE_THREAD_DEBUG_EVENT 8)
      (logged (CallWaitForDebugEvent (wait_timeout 0)) running) = Some (false, s1) ∧
    threads_ s1 !! 8 = Some (mkThread (mkCreateThread 31 32 33)) ∧
    wait_debug_event example_os 0
      [notification CREATE_THREAD_DEBUG_EVENT 8; notification EXIT_THREAD_DEBUG_EVENT 8]
      running = Some (None, [], s') ∧
    threads_ s' = threads_ running.
Proof.
  split; [reflexivity|]. split; [reflexivity|]. split; [reflexivity|]. split; [reflexivity|].
  pose proof (thread_create_exit_round_trip example_os 0
                (notification CREATE_THREAD_DEBUG_EVENT 8)
                (notification EXIT_THREAD_DEBUG_EVENT 8) [] running
                (mkProcess 200 1200 None) eq_refl eq_refl eq_refl eq_refl) as H.
  cbv zeta in H. destruct H as (Hd1 & Hlook & _ & Hrun & _ & _ & Hback).
  eexists _, _. split; [exact Hd1|]. split; [exact Hlook|]. split; [exact Hrun|].
  exact (Hback eq_refl).
Defined.

Lemma wait_timeout_range_witness :
  - 2 ^ 31 ≤ 250 < 2 ^ 31 ∧ - 2 ^ 31 ≤ -1 < 2 ^ 31 ∧
  wait_timeout 250 = 250 ∧ wait_timeout (-1) = INFINITE.
Proof.
  assert (H1 : - 2 ^ 31 ≤ 250 < 2 ^ 31) by (split; [discriminate|reflexivity]).
  assert (H2 : - 2 ^ 31 ≤ -1 < 2 ^ 31) by (split; [discriminate|reflexivity]).
  split; [exact H1|]. split; [exact H2|]. split.
  - apply (proj2 (proj2 (wait_timeout_range 250 H1))). reflexivity.
  - apply (proj1 (proj2 (wait_timeout_range (-1) H2))). right. reflexivity.
Defined.

Lemma attach_replaces_session_witness :
  process_ running = Some (mkProcess 200 1200 None) ∧
  ∃ st s',
    attach example_os 300 running = Some (st, s') ∧
    st = (if DebugActiveProcess example_os 300 then Ok
          else Error "Error DebuggerCore::attach") ∧
    process_ s' =
      (if DebugActiveProcess example_os 300
       then Some (PlatformProcess_of_pid example_os 300) else None) ∧
    threads_ s' = ∅ ∧
    active_thread_ s' = active_thread_ running ∧
    os_calls s' =
      os_calls running ++
      [CallClearBreakpoints;
       CallContinueDebugEvent 200 (active_thread_ running) DBG_CONTINUE;
       CallDebugActiveProcessStop 200;
       CallDebugActiveProcess 300].
Proof.
  split; [reflexivity|].
  apply (attach_replaces_session example_os 300 running (mkProcess 200 1200 None)).
  reflexivity.
Defined.

Lemma open_failure_witness :
  CreateProcessW guarded_os "C:/dir/a.exe" (command_line guarded_os "C:/dir/a.exe" [])
    CREATE_FLAGS (if isEmpty "" then canonicalPath guarded_os "C:/dir/a.exe" else "") = None ∧
  ∃ s',
    open guarded_os "C:/dir/a.exe" "" [] "" running =
      Some (Error "Error DebuggerCore::open", s') ∧
    attached s' = false.
Proof.
  split; [reflexivity|].
  destruct (open_failure guarded_os "C:/dir/a.exe" "" [] "" running eq_refl)
    as (s0 & s' & _ & Hrun & Hatt & _).
  exists s'. split; assumption.
Defined.

Lemma open_success_witness :
  CreateProcessW example_os "C:/dir/a.exe" (command_line example_os "C:/dir/a.exe" [])
    CREATE_FLAGS (if isEmpty "" then canonicalPath example_os "C:/dir/a.exe" else "")
  = Some (mkProcessInformation 1200 1207 200 7) ∧
  ∃ s0,
    detach fresh = Some (Ok, s0) ∧
    open example_os "C:/dir/a.exe" "" [] "" fresh =
    Some (Ok,
          mkCore (Some (PlatformProcess_of_handle example_os 1200)) (threads_ s0) 7
                 (os_calls s0 ++
                  [CallGetEnvironmentStringsW;
                   CallCreateProcessW "C:/dir/a.exe" (command_line example_os "C:/dir/a.exe" [])
                     CREATE_FLAGS
                     (if isEmpty "" then canonicalPath example_os "C:/dir/a.exe" else "");
                   CallCloseHandle 1207;
                   CallSetDebugPrivilege 1200 false;
                   CallFreeEnvironmentStringsW])).
Proof.
  split; [reflexivity|].
  apply (open_success example_os "C:/dir/a.exe" "" [] "" fresh
           (mkProcessInformation 1200 1207 200 7)).
  reflexivity.
Defined.

Lemma enumerate_processes_lookup_witness :
  enumerate_processes guarded_os !! 100 = Some (PlatformProcess_of_pid guarded_os 100) ∧
  enumerate_processes guarded_os !! 4 = None.
Proof.
  split.
  - apply (proj1 (proj2 (enumerate_processes_lookup guarded_os 100))
             [mkProcessEntry 4 0; mkProcessEntry 100 4; mkProcessEntry 200 100]).
    + reflexivity.
    + cbn. right. left.
    + discriminate.
  - apply (proj1 (proj2 (proj2 (enumerate_processes_lookup guarded_os 4)))). reflexivity.
Defined.

Lemma set_debug_privilege_token_discipline_witness :
  (∃ front,
     (set_debug_privilege example_tokens GetCurrentProcess true).2 =
       front ++ [CallCloseTokenHandle 900] ∧
     Forall (λ c, ∀ h, c ≠ CallCloseTokenHandle h) front) ∧
  (set_debug_privilege example_tokens GetCurrentProcess true).1 = true.
Proof.
  pose proof (set_debug_privilege_token_discipline example_tokens GetCurrentProcess true) as H.
  cbn [example_tokens OpenProcessToken] in H.
  destruct H as [(front & Hcalls & Hfront & _) Hok].
  split; [exists front; split; assumption|].
  apply Hok. exists 20. split; reflexivity.
Defined.

End Scenario.
